(** * atsscore-frontend: the application hooks

    A shallow embedding of the two React hooks of the repository,
    [useHRApplications] (reviewer side) and [useApplications] (applicant
    side), and the properties of the submission and scoring workflow.

    The hooks are asynchronous JavaScript that talks to a hosted backend
    (tables, file storage) and to a remote scoring service.  They are
    modelled as state transformers over a [World] holding everything the
    hooks can change, run against an [Env] holding the answers the outside
    gives during one invocation.  An exception is a completion of its own,
    so that [try]/[catch]/[finally] read as in the source.

    Nothing the outside hands back is validated by the hooks, so it is
    modelled as it arrives: the body of the scoring service's answer and a
    plain error object are arbitrary JSON values. *)

From Stdlib Require Import String List Bool ZArith QArith Lia.
From Stdlib.Strings Require Import Byte.
Import ListNotations.

Local Open Scope string_scope.
Local Open Scope list_scope.

(** ** JavaScript values the hooks rely on *)

(** A JSON number.  The hooks never compute with a score, they carry it from
    the service's answer to the table and to the screen. *)
Definition number : Type := Q.

(** The content of a stored file. *)
Definition Blob : Type := list byte.

(** What [JSON.parse] gives. *)
#[local] Set Warnings "-register-all".
Inductive Json : Type :=
| JNull
| JBool (b : bool)
| JNumber (q : number)
| JString (s : string)
| JArray (items : list Json)
| JObject (fields : list (string * Json)).

Definition is_null (v : Json) : bool :=
  match v with
  | JNull => true
  | _ => false
  end.

(** A value read off such data: [None] is [undefined]. *)
Definition JsValue : Type := option Json.

(** The value of key [name] in the fields of a parsed object; of a key
    that is repeated the last occurrence counts. *)
Fixpoint last_field (name : string) (fields : list (string * Json)) : JsValue :=
  match fields with
  | [] => None
  | (key, v) :: rest =>
      match last_field name rest with
      | Some later => Some later
      | None => if String.eqb key name then Some v else None
      end
  end.

(** [v.name] for a parsed value [v] that is not null and a [name] that no
    prototype defines: a field of an object, [undefined] on anything else. *)
Definition property (v : Json) (name : string) : JsValue :=
  match v with
  | JObject fields => last_field name fields
  | _ => None
  end.

(** The number a value is, when it is one. *)
Definition number_of (v : JsValue) : option number :=
  match v with
  | Some (JNumber q) => Some q
  | _ => None
  end.

Definition has_key (name : string) (fields : list (string * Json)) : bool :=
  existsb (fun kv => String.eqb (fst kv) name) fields.

(** Whether a value can stand in a template literal.  Primitives always
    can; an array is joined, so each of its items has to; a parsed object
    can unless it has a key [toString] of its own, which hides the method
    of the prototype behind something that cannot be called. *)
Fixpoint stringifies (v : Json) : bool :=
  match v with
  | JObject fields => negb (has_key "toString" fields)
  | JArray items => forallb stringifies items
  | _ => true
  end.

(** The same for a value that may be [undefined], which always can. *)
Definition template_ok (v : JsValue) : bool :=
  match v with
  | Some j => stringifies j
  | None => true
  end.

(** [items.includes(text)] for an array of parsed values. *)
Definition array_includes (items : list Json) (text : string) : bool :=
  existsb (fun item => match item with
                       | JString s => String.eqb s text
                       | _ => false
                       end) items.

(** Anything that is thrown or handed back in an [error] field: an
    instance of [Error] (made with [new Error(msg)], raised by the engine,
    or of an error class of a client library), which always has a message
    string, or a plain object, such as the parsed body of an error
    response, which has whatever fields it has.  Both are truthy, so
    [if (error) throw error] throws them. *)
Inductive JsError : Type :=
| ErrorInstance (text : string)
| ErrorValue (fields : list (string * Json)).

Definition new_Error (msg : string) : JsError := ErrorInstance msg.

Definition TypeError (msg : string) : JsError := ErrorInstance msg.

(** [err.message] *)
Definition message (err : JsError) : JsValue :=
  match err with
  | ErrorInstance text => Some (JString text)
  | ErrorValue fields => last_field "message" fields
  end.

(** [err instanceof Error ? err.message : 'An error occurred'] *)
Definition error_text (err : JsError) : string :=
  match err with
  | ErrorInstance text => text
  | ErrorValue _ => "An error occurred"
  end.

(** The faults the engine raises by itself, as a [TypeError] or a
    [SyntaxError] whose wording is the engine's. *)
Inductive Fault : Type :=
| PropertyOfNull (name : string)
| PropertyOfUndefined (name : string)
| NotAFunction (callee : string)
| NotAPrimitive
| InvalidJson.

(** Truthiness of a string: only the empty string is falsy. *)
Definition truthy (s : string) : bool :=
  match s with
  | EmptyString => false
  | String _ _ => true
  end.

(** [s || null] for an optional string (an absent argument is [undefined]). *)
Definition or_null (s : option string) : option string :=
  match s with
  | Some v => if truthy v then Some v else None
  | None => None
  end.

(** [hay.includes(needle)] *)
Fixpoint includes (hay needle : string) : bool :=
  if String.prefix needle hay then true
  else match hay with
       | EmptyString => false
       | String _ rest => includes rest needle
       end.

(** ** Data model *)

(** ['pending' | 'reviewed' | 'accepted' | 'rejected'] *)
Inductive Status : Type := pending | reviewed | accepted | rejected.

(** A row of the [applications] table, with the columns the hooks read and
    write. *)
Record ApplicationRow : Type := mkApplicationRow {
  id : string;
  job_id : string;
  user_id : string;
  status : Status;
  applied_at : string;
  cover_letter : option string;
  ats_score : option number;
  predicted_category : option string;
  confidence_score : option number;
  ats_calculated_at : option string
}.

(** The columns [file_path, file_name] selected from [resumes]. *)
Record ResumeData : Type := mkResumeData {
  file_path : string;
  file_name : string
}.

(** The object passed to [insert] by the applicant hook. *)
Record InsertPayload : Type := mkInsertPayload {
  ins_job_id : string;
  ins_user_id : string;
  ins_status : Status;
  ins_cover_letter : option string
}.

(** The two objects the hooks pass to [update].  The scoring values are
    what was read off the service's answer, whatever that is; a value that
    is [undefined] is left out of the request when it is serialised. *)
Inductive Patch : Type :=
| PatchStatus (new_status : Status)
| PatchScoring (score category confidence : JsValue) (calculated_at : string).

(** What an accepted update does to the columns of a row: for each scoring
    column, left alone ([None]), set to null ([Some None]) or set to a
    value. *)
Inductive Write : Type :=
| WriteStatus (new_status : Status)
| WriteScoring (score : option (option number))
               (category : option (option string))
               (confidence : option (option number))
               (calculated_at : string).

(** [ApplicationWithDetails], the element type of the reviewer's list.  The
    three scoring values are declared [number | null] and [string | null];
    at run time they hold what was put there. *)
Record ApplicationWithDetails : Type := mkApplicationWithDetails {
  application_id : string;
  d_job_id : string;
  d_user_id : string;
  d_status : Status;
  d_applied_at : string;
  d_cover_letter : option string;
  d_ats_score : JsValue;
  d_predicted_category : JsValue;
  d_confidence_score : JsValue;
  d_ats_calculated_at : option string;
  job_title : string;
  job_company : string;
  job_location : string;
  job_type : string;
  job_salary : option string;
  job_description : string;
  first_name : string;
  last_name : string;
  email : option string;
  phone : option string;
  applicant_company : option string;
  applicant_position : option string;
  resume_file_name : option string;
  resume_file_path : option string;
  resume_uploaded_at : option string
}.

(** The signed-in user of the auth context. *)
Record User : Type := mkUser { uid : string }.

(** [user?.id] when it is truthy. *)
Definition user_id_of (user : option User) : option string :=
  match user with
  | Some u => if truthy (uid u) then Some (uid u) else None
  | None => None
  end.

(** ** Calls to the outside *)

(** A field of a [FormData] body. *)
Inductive FormValue : Type :=
| FormText (text : string)
| FormFile (content : Blob).

Definition FormData : Type := list (string * FormValue).

(** Every call that leaves the browser, as the hooks issue it. *)
Inductive Call : Type :=
| SelectLatestResume (user : string)
| SelectApplication (job user : string)
| InsertApplication (payload : InsertPayload)
| UpdateApplication (application : string) (patch : Patch)
| StorageDownload (bucket path : string)
| StorageCreateSignedUrl (bucket path : string) (expires_in : Z)
| HttpPost (url : string) (body : FormData).

(** The [{ data, error }] pair every backend call resolves to. *)
Record Response (A : Type) : Type := mkResponse {
  data : option A;
  error : option JsError
}.
Arguments mkResponse {A} _ _.
Arguments data {A} _.
Arguments error {A} _.

(** What [fetch] gives: a rejected promise, or a response with its status
    code and its body, [None] when the body is not JSON (then
    [response.json()] rejects), and otherwise the value it parses to,
    which need not have the shape the service documents. *)
Inductive FetchOutcome : Type :=
| NetworkFailure (e : JsError)
| HttpResponse (status_code : Z) (json : option Json).

(** [response.ok]: the status is in the range 200-299. *)
Definition ok (status_code : Z) : bool :=
  ((200 <=? status_code) && (status_code <=? 299))%Z.

(** The notifications the applicant hook raises, one constructor per
    [toast] call of the source, with the values the call is given: the
    message of the error, the score that is formatted into the title and
    the category that is formatted into the description. *)
Inductive Toast : Type :=
| ToastSubmitted
| ToastResumeRequired
| ToastAlreadyApplied
| ToastApplicationFailed (description : JsValue)
| ToastAtsScore (score : number) (category : JsValue).

(** ** The world and the environment *)

Record World : Type := mkWorld {
  db_applications : list ApplicationRow;      (* table [applications] *)
  calls : list Call;                          (* calls issued, oldest first *)
  ticks : nat;                                (* clock reads so far *)
  console : list string;                      (* [console.error] lines *)
  toasts : list Toast;                        (* notifications, oldest first *)
  invalidations : nat;                        (* [invalidateQueries] calls *)
  applications : list ApplicationWithDetails; (* reviewer hook: [useState] *)
  loading : bool                              (* reviewer hook: [useState] *)
}.

(** What the outside answers during one invocation of a hook function. *)
Record Env : Type := mkEnv {
  resume_lookup : string -> Response ResumeData;
  application_lookup_error : option JsError;
  insert_error : option JsError;
  generated_id : string;
  server_now : string;
  update_error : option JsError;
  storage_download : string -> Response Blob;
  storage_sign : string -> Z -> Response string;
  http_post : string -> FormData -> FetchOutcome;
  clock : nat -> string;
  (* how the backend takes a value that is neither null nor of the
     column's type, [None] when it refuses the request *)
  cast_number : Json -> option (option number);
  cast_text : Json -> option (option string);
  cast_error : JsError;
  (* the engine's wording of the faults it raises *)
  engine_message : Fault -> string
}.

Definition set_db (f : list ApplicationRow -> list ApplicationRow) (w : World) : World :=
  {| db_applications := f (db_applications w); calls := calls w; ticks := ticks w;
     console := console w; toasts := toasts w; invalidations := invalidations w;
     applications := applications w; loading := loading w |}.

Definition log_call (c : Call) (w : World) : World :=
  {| db_applications := db_applications w; calls := calls w ++ [c]; ticks := ticks w;
     console := console w; toasts := toasts w; invalidations := invalidations w;
     applications := applications w; loading := loading w |}.

Definition tick (w : World) : World :=
  {| db_applications := db_applications w; calls := calls w; ticks := S (ticks w);
     console := console w; toasts := toasts w; invalidations := invalidations w;
     applications := applications w; loading := loading w |}.

Definition log_console (line : string) (w : World) : World :=
  {| db_applications := db_applications w; calls := calls w; ticks := ticks w;
     console := console w ++ [line]; toasts := toasts w; invalidations := invalidations w;
     applications := applications w; loading := loading w |}.

Definition push_toast (t : Toast) (w : World) : World :=
  {| db_applications := db_applications w; calls := calls w; ticks := ticks w;
     console := console w; toasts := toasts w ++ [t]; invalidations := invalidations w;
     applications := applications w; loading := loading w |}.

Definition count_invalidation (w : World) : World :=
  {| db_applications := db_applications w; calls := calls w; ticks := ticks w;
     console := console w; toasts := toasts w; invalidations := S (invalidations w);
     applications := applications w; loading := loading w |}.

Definition set_applications
  (f : list ApplicationWithDetails -> list ApplicationWithDetails) (w : World) : World :=
  {| db_applications := db_applications w; calls := calls w; ticks := ticks w;
     console := console w; toasts := toasts w; invalidations := invalidations w;
     applications := f (applications w); loading := loading w |}.

Definition set_loading (b : bool) (w : World) : World :=
  {| db_applications := db_applications w; calls := calls w; ticks := ticks w;
     console := console w; toasts := toasts w; invalidations := invalidations w;
     applications := applications w; loading := b |}.

(** ** Asynchronous functions as state transformers with exceptions *)

Inductive Completion (A : Type) : Type :=
| Return (a : A)
| Throw (e : JsError).
Arguments Return {A} _.
Arguments Throw {A} _.

Definition Async (A : Type) : Type := World -> Completion A * World.

Definition ret {A} (a : A) : Async A := fun w => (Return a, w).

Definition throw {A} (e : JsError) : Async A := fun w => (Throw e, w).

Definition bind {A B} (m : Async A) (k : A -> Async B) : Async B :=
  fun w => match m w with
           | (Return a, w') => k a w'
           | (Throw e, w') => (Throw e, w')
           end.

(** An effect on the world that gives no value. *)
Definition effect (f : World -> World) : Async unit := fun w => (Return tt, f w).

(** [try { body } catch (err) { handler }] *)
Definition try_catch {A} (body : Async A) (handler : JsError -> Async A) : Async A :=
  fun w => match body w with
           | (Return a, w') => (Return a, w')
           | (Throw e, w') => handler e w'
           end.

(** [try { body } finally { cleanup }], for a [cleanup] that cannot throw. *)
Definition try_finally {A} (body : Async A) (cleanup : World -> World) : Async A :=
  fun w => let (c, w') := body w in (c, cleanup w').

Declare Scope async_scope.
Delimit Scope async_scope with async.
Notation "x <- m ;; k" := (bind m (fun x => k))
  (at level 61, m at next level, right associativity) : async_scope.
Notation "m ;;; k" := (bind m (fun _ => k))
  (at level 61, right associativity) : async_scope.
Local Open Scope async_scope.

(** ** The backend client, the storage and the network *)

(** Modelled from the spec: the column defaults of the [applications] table
    are not in the sources (the generated types predate the scoring
    columns).  A new Application gets its identity from the backend, is
    timestamped now, and its scoring fields are null. *)
Definition new_row (p : InsertPayload) (new_id now : string) : ApplicationRow :=
  {| id := new_id;
     job_id := ins_job_id p;
     user_id := ins_user_id p;
     status := ins_status p;
     applied_at := now;
     cover_letter := ins_cover_letter p;
     ats_score := None;
     predicted_category := None;
     confidence_score := None;
     ats_calculated_at := None |}.

(** Modelled from the spec: the scoring columns are a nullable number, a
    nullable text and a nullable number.  How the backend takes a value
    sent for a numeric column: null and numbers as they are, anything else
    as the environment says. *)
Definition takes_number (env : Env) (v : Json) : option (option number) :=
  match v with
  | JNull => Some None
  | JNumber q => Some (Some q)
  | other => cast_number env other
  end.

(** The same for a text column. *)
Definition takes_text (env : Env) (v : Json) : option (option string) :=
  match v with
  | JNull => Some None
  | JString s => Some (Some s)
  | other => cast_text env other
  end.

(** One column of the request: an [undefined] value is not sent, so the
    column is left alone; a value the backend cannot take fails the
    request ([None]). *)
Definition sent {A : Type} (takes : Json -> option (option A)) (v : JsValue)
  : option (option (option A)) :=
  match v with
  | None => Some None
  | Some j =>
      match takes j with
      | Some stored => Some (Some stored)
      | None => None
      end
  end.

(** What the backend makes of an [update] object, [None] when it refuses
    one of the values. *)
Definition backend_reads (env : Env) (p : Patch) : option Write :=
  match p with
  | PatchStatus s => Some (WriteStatus s)
  | PatchScoring score category confidence at_ =>
      match sent (takes_number env) score,
            sent (takes_text env) category,
            sent (takes_number env) confidence with
      | Some sc, Some cat, Some conf => Some (WriteScoring sc cat conf at_)
      | _, _, _ => None
      end
  end.

(** A column after a write. *)
Definition written {A : Type} (column : option (option A)) (before : option A)
  : option A :=
  match column with
  | Some stored => stored
  | None => before
  end.

(** The effect of an accepted update on one row. *)
Definition apply_write (wr : Write) (r : ApplicationRow) : ApplicationRow :=
  match wr with
  | WriteStatus s =>
      {| id := id r; job_id := job_id r; user_id := user_id r;
         status := s;
         applied_at := applied_at r; cover_letter := cover_letter r;
         ats_score := ats_score r; predicted_category := predicted_category r;
         confidence_score := confidence_score r;
         ats_calculated_at := ats_calculated_at r |}
  | WriteScoring sc cat conf at_ =>
      {| id := id r; job_id := job_id r; user_id := user_id r;
         status := status r;
         applied_at := applied_at r; cover_letter := cover_letter r;
         ats_score := written sc (ats_score r);
         predicted_category := written cat (predicted_category r);
         confidence_score := written conf (confidence_score r);
         ats_calculated_at := Some at_ |}
  end.

(** [update(patch).eq('id', application)] on the table, once accepted. *)
Definition update_where_id (application : string) (wr : Write)
  (rows : list ApplicationRow) : list ApplicationRow :=
  map (fun r => if String.eqb (id r) application then apply_write wr r else r) rows.

(** [.eq('job_id', job).eq('user_id', user)] *)
Definition applications_of (job user : string) (rows : list ApplicationRow)
  : list ApplicationRow :=
  filter (fun r => String.eqb (job_id r) job && String.eqb (user_id r) user) rows.

(** [.maybeSingle()]: no row gives null, one row gives the row, more rows
    give an error and no data. *)
Definition maybeSingle {A} (rows : list A) : Response A :=
  match rows with
  | [] => mkResponse None None
  | [r] => mkResponse (Some r) None
  | _ :: _ :: _ =>
      mkResponse None
        (Some (ErrorValue
                 [("message",
                   JString "JSON object requested, multiple (or no) rows returned")]))
  end.

(** [from('resumes').select(..).eq('user_id', user).order(..).limit(1).maybeSingle()] *)
Definition select_latest_resume (env : Env) (user : string) : Async (Response ResumeData) :=
  fun w => (Return (resume_lookup env user), log_call (SelectLatestResume user) w).

(** [from('applications').select('id').eq('job_id', job).eq('user_id', user).maybeSingle()] *)
Definition select_application (env : Env) (job user : string) : Async (Response string) :=
  fun w =>
    let w' := log_call (SelectApplication job user) w in
    match application_lookup_error env with
    | Some e => (Return (mkResponse None (Some e)), w')
    | None => (Return (maybeSingle (map id (applications_of job user (db_applications w)))), w')
    end.

(** [from('applications').insert(payload).select('id').single()] *)
Definition insert_application (env : Env) (p : InsertPayload) : Async (Response string) :=
  fun w =>
    let w' := log_call (InsertApplication p) w in
    match insert_error env with
    | Some e => (Return (mkResponse None (Some e)), w')
    | None =>
        (Return (mkResponse (Some (generated_id env)) None),
         set_db (fun rows => rows ++ [new_row p (generated_id env) (server_now env)]) w')
    end.

(** [from('applications').update(patch).eq('id', application)] *)
Definition update_application (env : Env) (application : string) (p : Patch)
  : Async (Response unit) :=
  fun w =>
    let w' := log_call (UpdateApplication application p) w in
    match update_error env with
    | Some e => (Return (mkResponse None (Some e)), w')
    | None =>
        match backend_reads env p with
        | None => (Return (mkResponse None (Some (cast_error env))), w')
        | Some wr =>
            (Return (mkResponse None None), set_db (update_where_id application wr) w')
        end
    end.

(** [storage.from(bucket).download(path)] *)
Definition download (env : Env) (bucket path : string) : Async (Response Blob) :=
  fun w => (Return (storage_download env path), log_call (StorageDownload bucket path) w).

(** [storage.from(bucket).createSignedUrl(path, expires_in)] *)
Definition createSignedUrl (env : Env) (bucket path : string) (expires_in : Z)
  : Async (Response string) :=
  fun w => (Return (storage_sign env path expires_in),
            log_call (StorageCreateSignedUrl bucket path expires_in) w).

(** [fetch(url, { method: 'POST', body })]: a network failure rejects. *)
Definition fetch_post (env : Env) (url : string) (body : FormData)
  : Async (Z * option Json) :=
  fun w =>
    let w' := log_call (HttpPost url body) w in
    match http_post env url body with
    | NetworkFailure e => (Throw e, w')
    | HttpResponse code js => (Return (code, js), w')
    end.

(** [response.json()] *)
Definition response_json (env : Env) (js : option Json) : Async Json :=
  match js with
  | Some result => ret result
  | None => throw (ErrorInstance (engine_message env InvalidJson))
  end.

(** [result.name] for the parsed body [result]: reading a property of null
    is a fault. *)
Definition read (env : Env) (result : Json) (name : string) : Async JsValue :=
  if is_null result
  then throw (TypeError (engine_message env (PropertyOfNull name)))
  else ret (property result name).

(** The fault of [v.toFixed(1)] for a [v] that is no number: no property
    can be read of [undefined] or null, and nothing else in parsed data
    has a method of that name. *)
Definition toFixed_fault (v : JsValue) : Fault :=
  match v with
  | None => PropertyOfUndefined "toFixed"
  | Some JNull => PropertyOfNull "toFixed"
  | Some _ => NotAFunction "result.ats_score.toFixed"
  end.

(** [v.toFixed(1)], giving the number that is formatted. *)
Definition toFixed (env : Env) (v : JsValue) : Async number :=
  match number_of v with
  | Some q => ret q
  | None => throw (TypeError (engine_message env (toFixed_fault v)))
  end.

(** A value inside a template literal. *)
Definition in_template (env : Env) (v : JsValue) : Async JsValue :=
  if template_ok v then ret v
  else throw (TypeError (engine_message env NotAPrimitive)).

(** [new Date().toISOString()] *)
Definition Date_now_toISOString (env : Env) : Async string :=
  fun w => (Return (clock env (ticks w)), tick w).

(** [formData.append('resume_file', fileData)]: a null value is appended as
    the text ["null"]. *)
Definition file_field (fileData : option Blob) : FormValue :=
  match fileData with
  | Some b => FormFile b
  | None => FormText "null"
  end.

(** The body both hooks build for the scoring service. *)
Definition scoring_form (jobDescription : string) (fileData : option Blob) : FormData :=
  [("job_description", FormText jobDescription); ("resume_file", file_field fileData)].

(** The object both hooks pass to [update] after scoring. *)
Definition scoring_patch (result : Json) (now : string) : Patch :=
  PatchScoring (property result "ats_score") (property result "predicted_category")
               (property result "confidence") now.

(** ** hooks/useHRApplications.ts *)

(** What the reviewer hook's functions resolve to:
    [{ success: true, data? }] or [{ success: false, error }]. *)
Record HookResult : Type := mkHookResult {
  success : bool;
  result_data : option Json;
  result_error : option string
}.

(** [{ ...app, status: newStatus }] *)
Definition with_status (newStatus : Status) (app : ApplicationWithDetails)
  : ApplicationWithDetails :=
  {| application_id := application_id app; d_job_id := d_job_id app;
     d_user_id := d_user_id app;
     d_status := newStatus;
     d_applied_at := d_applied_at app; d_cover_letter := d_cover_letter app;
     d_ats_score := d_ats_score app;
     d_predicted_category := d_predicted_category app;
     d_confidence_score := d_confidence_score app;
     d_ats_calculated_at := d_ats_calculated_at app;
     job_title := job_title app; job_company := job_company app;
     job_location := job_location app; job_type := job_type app;
     job_salary := job_salary app; job_description := job_description app;
     first_name := first_name app; last_name := last_name app;
     email := email app; phone := phone app;
     applicant_company := applicant_company app;
     applicant_position := applicant_position app;
     resume_file_name := resume_file_name app;
     resume_file_path := resume_file_path app;
     resume_uploaded_at := resume_uploaded_at app |}.

(** [{ ...app, ats_score: .., predicted_category: .., confidence_score: ..,
       ats_calculated_at: .. }] *)
Definition with_scoring (result : Json) (now : string)
  (app : ApplicationWithDetails) : ApplicationWithDetails :=
  {| application_id := application_id app; d_job_id := d_job_id app;
     d_user_id := d_user_id app;
     d_status := d_status app;
     d_applied_at := d_applied_at app; d_cover_letter := d_cover_letter app;
     d_ats_score := property result "ats_score";
     d_predicted_category := property result "predicted_category";
     d_confidence_score := property result "confidence";
     d_ats_calculated_at := Some now;
     job_title := job_title app; job_company := job_company app;
     job_location := job_location app; job_type := job_type app;
     job_salary := job_salary app; job_description := job_description app;
     first_name := first_name app; last_name := last_name app;
     email := email app; phone := phone app;
     applicant_company := applicant_company app;
     applicant_position := applicant_position app;
     resume_file_name := resume_file_name app;
     resume_file_path := resume_file_path app;
     resume_uploaded_at := resume_uploaded_at app |}.

(** The [prev.map(..)] of [calculateAtsScore]: the callback reads the clock
    for each element it rewrites.  Gives the new list and the clock reads
    used. *)
Fixpoint rescore_all (env : Env) (applicationId : string) (result : Json)
  (prev : list ApplicationWithDetails) (t : nat)
  : list ApplicationWithDetails * nat :=
  match prev with
  | [] => ([], t)
  | app :: rest =>
      if String.eqb (application_id app) applicationId then
        let (rest', t') := rescore_all env applicationId result rest (S t) in
        (with_scoring result (clock env t) app :: rest', t')
      else
        let (rest', t') := rescore_all env applicationId result rest t in
        (app :: rest', t')
  end.

Definition setApplications_rescored (env : Env) (applicationId : string)
  (result : Json) (w : World) : World :=
  let (apps, t) := rescore_all env applicationId result (applications w) (ticks w) in
  {| db_applications := db_applications w; calls := calls w; ticks := t;
     console := console w; toasts := toasts w; invalidations := invalidations w;
     applications := apps; loading := loading w |}.

Module useHRApplications.

Definition ATS_API_URL : string := "https://atsscore-production.up.railway.app".

Definition updateApplicationStatus (env : Env) (applicationId : string)
  (newStatus : Status) : Async HookResult :=
  try_catch
    (upd <- update_application env applicationId (PatchStatus newStatus) ;;
     match error upd with
     | Some e => throw e
     | None =>
         effect (set_applications
                   (map (fun app =>
                           if String.eqb (application_id app) applicationId
                           then with_status newStatus app
                           else app))) ;;;
         ret (mkHookResult true None None)
     end)
    (fun err =>
       effect (log_console "Error updating application status:") ;;;
       ret (mkHookResult false None (Some (error_text err)))).

Definition calculateAtsScore (env : Env)
  (applicationId jobDescription resumeFilePath : string) : Async HookResult :=
  try_finally
    (try_catch
       (effect (set_loading true) ;;;
        file <- download env "resumes" resumeFilePath ;;
        match error file with
        | Some downloadError => throw downloadError
        | None =>
            response <- fetch_post env (ATS_API_URL ++ "/analyze-resume")
                                   (scoring_form jobDescription (data file)) ;;
            if negb (ok (fst response))
            then throw (new_Error "Failed to calculate ATS score")
            else
              result <- response_json env (snd response) ;;
              score <- read env result "ats_score" ;;
              category <- read env result "predicted_category" ;;
              confidence <- read env result "confidence" ;;
              now <- Date_now_toISOString env ;;
              upd <- update_application env applicationId
                       (PatchScoring score category confidence now) ;;
              match error upd with
              | Some updateError => throw updateError
              | None =>
                  effect (setApplications_rescored env applicationId result) ;;;
                  ret (mkHookResult true (Some result) None)
              end
        end)
       (fun err =>
          effect (log_console "Error calculating ATS score:") ;;;
          ret (mkHookResult false None (Some (error_text err)))))
    (set_loading false).

Definition getResumeDownloadUrl (env : Env) (filePath : string)
  : Async (option string) :=
  if negb (truthy filePath) then ret None
  else
    try_catch
      (signed <- createSignedUrl env "resumes" filePath 3600 ;;
       match error signed with
       | Some e => throw e
       | None =>
           match data signed with
           | Some signedUrl => ret (Some signedUrl)
           | None => throw (TypeError (engine_message env (PropertyOfNull "signedUrl")))
           end
       end)
      (fun err =>
         effect (log_console "Error getting resume download URL:") ;;;
         ret None).

End useHRApplications.

(** ** hooks/useApplications.ts *)

(** How a mutation settles. *)
Inductive Settled : Type :=
| Succeeded (applicationData : option string)
| Failed (e : JsError).

(** The file reference the submission goes on with: the test
    [resumeError || !resumeData || !resumeData.file_path] is false. *)
Definition usable_file_path (resume : Response ResumeData) : option string :=
  match error resume, data resume with
  | Some _, _ => None
  | None, None => None
  | None, Some resumeData =>
      if truthy (file_path resumeData) then Some (file_path resumeData) else None
  end.

Module useApplications.

Definition ATS_API_URL : string := "https://atsscore-production-1ce3.up.railway.app".

Definition calculateAndSaveAtsScore (env : Env)
  (applicationId jobDescription resumeFilePath : string) : Async Json :=
  try_catch
    (file <- download env "resumes" resumeFilePath ;;
     match error file with
     | Some downloadError => throw downloadError
     | None =>
         response <- fetch_post env (ATS_API_URL ++ "/analyze-resume")
                                (scoring_form jobDescription (data file)) ;;
         if negb (ok (fst response))
         then throw (new_Error "Failed to calculate ATS score")
         else
           result <- response_json env (snd response) ;;
           score <- read env result "ats_score" ;;
           category <- read env result "predicted_category" ;;
           confidence <- read env result "confidence" ;;
           now <- Date_now_toISOString env ;;
           upd <- update_application env applicationId
                    (PatchScoring score category confidence now) ;;
           match error upd with
           | Some updateError => throw updateError
           | None =>
               formatted <- toFixed env score ;;
               shown <- in_template env category ;;
               effect (push_toast (ToastAtsScore formatted shown)) ;;;
               effect count_invalidation ;;;
               ret result
           end
     end)
    (fun err =>
       effect (log_console "Error in calculateAndSaveAtsScore:") ;;;
       throw err).

Definition mutationFn (env : Env) (user : option User)
  (jobId jobDescription : string) (coverLetter : option string)
  : Async (option string) :=
  match user_id_of user with
  | None => throw (new_Error "Please log in to apply for jobs")
  | Some user_id =>
      resume <- select_latest_resume env user_id ;;
      match usable_file_path resume with
      | None => throw (new_Error "RESUME_REQUIRED")
      | Some resume_path =>
          existing <- select_application env jobId user_id ;;
          match data existing with
          | Some _ => throw (new_Error "You have already applied to this job!")
          | None =>
              inserted <- insert_application env
                            {| ins_job_id := jobId;
                               ins_user_id := user_id;
                               ins_status := pending;
                               ins_cover_letter := or_null coverLetter |} ;;
              match error inserted with
              | Some applicationError => throw applicationError
              | None =>
                  try_catch
                    (match data inserted with
                     | None =>
                         throw (TypeError (engine_message env (PropertyOfNull "id")))
                     | Some application =>
                         calculateAndSaveAtsScore env application jobDescription
                                                  resume_path ;;;
                         ret tt
                     end)
                    (fun atsError => effect (log_console "ATS calculation failed:")) ;;;
                  ret (data inserted)
              end
          end
      end
  end.

Definition onSuccess (w : World) : World :=
  push_toast ToastSubmitted (count_invalidation w).

(** [onError].  The message of what was thrown is compared and searched
    as it is: a string is searched as text, an array for an item, and on
    anything else, [undefined] included, [.includes] is a fault; what a
    callback throws is dropped by [mutate], so then nothing is raised. *)
Definition onError (e : JsError) (w : World) : World :=
  match message e with
  | Some (JString text) =>
      if String.eqb text "RESUME_REQUIRED" then push_toast ToastResumeRequired w
      else if includes text "already applied" then push_toast ToastAlreadyApplied w
      else push_toast (ToastApplicationFailed (message e)) w
  | Some (JArray items) =>
      if array_includes items "already applied" then push_toast ToastAlreadyApplied w
      else push_toast (ToastApplicationFailed (message e)) w
  | _ => w
  end.

(** [applyToJobMutation.mutate(..)]: run [mutationFn], then the callback
    that matches how it settled. *)
Definition applyToJob (env : Env) (user : option User)
  (jobId jobDescription : string) (coverLetter : option string)
  : World -> Settled * World :=
  fun w =>
    match mutationFn env user jobId jobDescription coverLetter w with
    | (Return applicationData, w') => (Succeeded applicationData, onSuccess w')
    | (Throw e, w') => (Failed e, onError e w')
    end.

End useApplications.

(** ** Vocabulary of the properties *)

(** The two places that run the scoring sub-flow. *)
Inductive CallSite : Type := Reviewer | Applicant.

Definition base_url (site : CallSite) : string :=
  match site with
  | Reviewer => useHRApplications.ATS_API_URL
  | Applicant => useApplications.ATS_API_URL
  end.

(** The sub-flow at either place, reduced to what both have in common: the
    scoring result when it succeeded, and the world it leaves. *)
Definition run_scoring (site : CallSite) (env : Env)
  (applicationId jobDescription resumeFilePath : string) (w : World)
  : option Json * World :=
  match site with
  | Reviewer =>
      match useHRApplications.calculateAtsScore env applicationId jobDescription
              resumeFilePath w with
      | (Return r, w') => (if success r then result_data r else None, w')
      | (Throw _, w') => (None, w')
      end
  | Applicant =>
      match useApplications.calculateAndSaveAtsScore env applicationId jobDescription
              resumeFilePath w with
      | (Return r, w') => (Some r, w')
      | (Throw _, w') => (None, w')
      end
  end.

(** The scoring fields of a row are all null. *)
Definition unscored (r : ApplicationRow) : Prop :=
  ats_score r = None /\ predicted_category r = None /\
  confidence_score r = None /\ ats_calculated_at r = None.



(** The shape the scoring service documents for its answer: an object
    with a number [ats_score], a string [predicted_category] and a number
    [confidence]. *)
Definition documented_shape (result : Json) (score : number) (category : string)
  (confidence : number) : Prop :=
  property result "ats_score" = Some (JNumber score) /\
  property result "predicted_category" = Some (JString category) /\
  property result "confidence" = Some (JNumber confidence).

(** Whether the applicant hook can word its announcement for an answer:
    the score is formatted as a number, the category is put into a
    template literal. *)
Definition announceable (result : Json) : bool :=
  match number_of (property result "ats_score") with
  | Some _ => template_ok (property result "predicted_category")
  | None => false
  end.


(** The three steps of the sub-flow that can fail, read off the
    environment.  The call to the scoring service has failed when the
    request is rejected, the status is outside 200-299, the body is not
    JSON, or the body is null, of which no field can be read. *)
Definition download_fails (env : Env) (path : string) : Prop :=
  error (storage_download env path) <> None.

Definition scoring_call_fails (env : Env) (url : string) (body : FormData) : Prop :=
  match http_post env url body with
  | NetworkFailure _ => True
  | HttpResponse code js => ok code = false \/ js = None \/ js = Some JNull
  end.

Definition write_back_fails (env : Env) : Prop := update_error env <> None.

(** The write-back also fails when the backend cannot take a value of the
    service's answer for its column. *)
Definition value_refused (env : Env) (url : string) (body : FormData) : Prop :=
  exists code result,
    http_post env url body = HttpResponse code (Some result) /\
    forall now, backend_reads env (scoring_patch result now) = None.

(** Two cached applications agree on every field but [status]. *)
Definition same_but_status (a b : ApplicationWithDetails) : Prop :=
  application_id a = application_id b /\ d_job_id a = d_job_id b /\
  d_user_id a = d_user_id b /\ d_applied_at a = d_applied_at b /\
  d_cover_letter a = d_cover_letter b /\ d_ats_score a = d_ats_score b /\
  d_predicted_category a = d_predicted_category b /\
  d_confidence_score a = d_confidence_score b /\
  d_ats_calculated_at a = d_ats_calculated_at b /\
  job_title a = job_title b /\ job_company a = job_company b /\
  job_location a = job_location b /\ job_type a = job_type b /\
  job_salary a = job_salary b /\ job_description a = job_description b /\
  first_name a = first_name b /\ last_name a = last_name b /\
  email a = email b /\ phone a = phone b /\
  applicant_company a = applicant_company b /\
  applicant_position a = applicant_position b /\
  resume_file_name a = resume_file_name b /\
  resume_file_path a = resume_file_path b /\
  resume_uploaded_at a = resume_uploaded_at b.

(** A call with the address of an HTTP request blanked, to compare call
    sequences up to the scoring service's base URL. *)
Definition forget_url (c : Call) : Call :=
  match c with
  | HttpPost _ body => HttpPost "" body
  | other => other
  end.

(** The calls that change the backend's tables. *)
Definition is_write (c : Call) : bool :=
  match c with
  | InsertApplication _ | UpdateApplication _ _ => true
  | _ => false
  end.

(** ** Sample data *)

Module Sample.

Definition alice : User := {| uid := "user-a" |}.

Definition resume_bytes : Blob := [x25; x50; x44; x46].

Definition result : Json :=
  JObject [("ats_score", JNumber (175 # 2));
           ("predicted_category", JString "Software Engineering");
           ("confidence", JNumber (91 # 100))].

Definition unreachable : JsError :=
  ErrorValue [("message", JString "Failed to fetch")].

(** The faults as V8 words them. *)
Definition v8_message (f : Fault) : string :=
  match f with
  | PropertyOfNull name =>
      "Cannot read properties of null (reading '" ++ name ++ "')"
  | PropertyOfUndefined name =>
      "Cannot read properties of undefined (reading '" ++ name ++ "')"
  | NotAFunction callee => callee ++ " is not a function"
  | NotAPrimitive => "Cannot convert object to primitive value"
  | InvalidJson => "Unexpected end of JSON input"
  end.

(** The error of a backend that refuses a value. *)
Definition invalid_input : JsError :=
  ErrorValue [("code", JString "22P02");
              ("message", JString "invalid input syntax")].

(** A backend and a scoring service that answer every call. *)
Definition env : Env :=
  {| resume_lookup := fun _ =>
       mkResponse (Some {| file_path := "user-a/cv.pdf"; file_name := "cv.pdf" |}) None;
     application_lookup_error := None;
     insert_error := None;
     generated_id := "app-1";
     server_now := "2024-05-01T10:00:00.000Z";
     update_error := None;
     storage_download := fun _ => mkResponse (Some resume_bytes) None;
     storage_sign := fun path _ => mkResponse (Some ("https://signed/" ++ path)%string) None;
     http_post := fun _ _ => HttpResponse 200 (Some result);
     clock := fun _ => "2024-05-01T10:00:01.000Z";
     cast_number := fun _ => None;
     cast_text := fun _ => None;
     cast_error := invalid_input;
     engine_message := v8_message |}.

(** The scoring service answers HTTP 500. *)
Definition env_scoring_down : Env :=
  {| resume_lookup := resume_lookup env;
     application_lookup_error := None;
     insert_error := None;
     generated_id := "app-1";
     server_now := server_now env;
     update_error := None;
     storage_download := storage_download env;
     storage_sign := storage_sign env;
     http_post := fun _ _ => HttpResponse 500 None;
     clock := clock env;
     cast_number := cast_number env;
     cast_text := cast_text env;
     cast_error := cast_error env;
     engine_message := engine_message env |}.

(** The applicant has no résumé row. *)
Definition env_no_resume : Env :=
  {| resume_lookup := fun _ => mkResponse None None;
     application_lookup_error := None;
     insert_error := None;
     generated_id := "app-1";
     server_now := server_now env;
     update_error := None;
     storage_download := storage_download env;
     storage_sign := storage_sign env;
     http_post := http_post env;
     clock := clock env;
     cast_number := cast_number env;
     cast_text := cast_text env;
     cast_error := cast_error env;
     engine_message := engine_message env |}.

(** The backend is unreachable for the résumé lookup. *)
Definition env_lookup_unreachable : Env :=
  {| resume_lookup := fun _ => mkResponse None (Some unreachable);
     application_lookup_error := None;
     insert_error := None;
     generated_id := "app-1";
     server_now := server_now env;
     update_error := None;
     storage_download := storage_download env;
     storage_sign := storage_sign env;
     http_post := http_post env;
     clock := clock env;
     cast_number := cast_number env;
     cast_text := cast_text env;
     cast_error := cast_error env;
     engine_message := engine_message env |}.

Definition empty_world : World :=
  {| db_applications := []; calls := []; ticks := 0; console := [];
     toasts := []; invalidations := 0; applications := []; loading := false |}.

(** Alice has already applied to job ["job-1"] and was scored. *)
Definition applied_row : ApplicationRow :=
  {| id := "app-0"; job_id := "job-1"; user_id := "user-a"; status := pending;
     applied_at := "2024-04-30T09:00:00.000Z"; cover_letter := None;
     ats_score := Some (60 # 1); predicted_category := Some "Data Science";
     confidence_score := Some (1 # 2);
     ats_calculated_at := Some "2024-04-30T09:00:02.000Z" |}.

Definition applied_world : World :=
  {| db_applications := [applied_row]; calls := []; ticks := 0; console := [];
     toasts := []; invalidations := 0; applications := []; loading := false |}.

(** The backend is unreachable for the duplicate-application lookup. *)
Definition env_duplicate_lookup_unreachable : Env :=
  {| resume_lookup := resume_lookup env;
     application_lookup_error := Some unreachable;
     insert_error := None;
     generated_id := "app-1";
     server_now := server_now env;
     update_error := None;
     storage_download := storage_download env;
     storage_sign := storage_sign env;
     http_post := http_post env;
     clock := clock env;
     cast_number := cast_number env;
     cast_text := cast_text env;
     cast_error := cast_error env;
     engine_message := engine_message env |}.

(** The reviewer's cached entry for Alice's application. *)
Definition cached : ApplicationWithDetails :=
  {| application_id := "app-0"; d_job_id := "job-1"; d_user_id := "user-a";
     d_status := pending; d_applied_at := "2024-04-30T09:00:00.000Z";
     d_cover_letter := None; d_ats_score := Some (JNumber (60 # 1));
     d_predicted_category := Some (JString "Data Science");
     d_confidence_score := Some (JNumber (1 # 2));
     d_ats_calculated_at := Some "2024-04-30T09:00:02.000Z";
     job_title := "Senior Go Engineer"; job_company := "Acme";
     job_location := "Remote"; job_type := "full-time"; job_salary := None;
     job_description := "Senior Go Engineer";
     first_name := "Alice"; last_name := "Doe"; email := None; phone := None;
     applicant_company := None; applicant_position := None;
     resume_file_name := Some "cv.pdf";
     resume_file_path := Some "user-a/cv.pdf";
     resume_uploaded_at := Some "2024-04-29T08:00:00.000Z" |}.

Definition reviewer_world : World :=
  {| db_applications := [applied_row]; calls := []; ticks := 0; console := [];
     toasts := []; invalidations := 0; applications := [cached];
     loading := false |}.

End Sample.

(** ** The rest of the reviewer hook *)

(** The reviewer hook has a third piece of state, [error], and calls one
    remote procedure; both sit beside the world of the other functions. *)
Record ReviewerState : Type := mkReviewerState {
  world : World;
  hook_error : option string;   (* [useState<string | null>] *)
  rpc_calls : nat               (* calls of [rpc('get_hr_applications_with_ats')] *)
}.

Definition in_world (f : World -> World) (s : ReviewerState) : ReviewerState :=
  {| world := f (world s); hook_error := hook_error s; rpc_calls := rpc_calls s |}.

Definition setError (e : option string) (s : ReviewerState) : ReviewerState :=
  {| world := world s; hook_error := e; rpc_calls := rpc_calls s |}.

Definition count_rpc (s : ReviewerState) : ReviewerState :=
  {| world := world s; hook_error := hook_error s; rpc_calls := S (rpc_calls s) |}.

(** [fetchApplications], run against the answer [rpc] of the remote
    procedure: nothing without a user; otherwise the list is replaced on
    success, the error is set on failure, and [loading] is dropped in the
    [finally] block. *)
Definition fetchApplications (rpc : Response (list ApplicationWithDetails))
  (user : option User) (s : ReviewerState) : ReviewerState :=
  match user with
  | None => s
  | Some _ =>
      let s1 := setError None (in_world (set_loading true) s) in
      let s2 := count_rpc s1 in
      let s3 :=
        match error rpc with
        | Some err =>
            setError (Some (error_text err))
              (in_world (log_console "Error fetching applications:") s2)
        | None =>
            in_world (set_applications
                        (fun _ => match data rpc with
                                  | Some rows => rows
                                  | None => []
                                  end)) s2
        end in
      in_world (set_loading false) s3
  end.

(** The state the hook starts from: [useState([])], [useState(true)],
    [useState(null)], over a backend holding [rows]. *)
Definition initial_state (rows : list ApplicationRow) : ReviewerState :=
  {| world := {| db_applications := rows; calls := []; ticks := 0; console := [];
                 toasts := []; invalidations := 0; applications := [];
                 loading := true |};
     hook_error := None;
     rpc_calls := 0 |}.

(** ** More vocabulary *)


(** Everything of a row that is not a scoring field. *)
Definition unscored_part (r : ApplicationRow)
  : string * string * string * Status * string * option string :=
  (id r, job_id r, user_id r, status r, applied_at r, cover_letter r).

(** The four scoring fields of a row. *)
Definition scoring_part (r : ApplicationRow)
  : option number * option string * option number * option string :=
  (ats_score r, predicted_category r, confidence_score r, ats_calculated_at r).

(** The notifications that close a submission, as opposed to the one that
    announces a score. *)
Definition closes_submission (t : Toast) : bool :=
  match t with
  | ToastAtsScore _ _ => false
  | _ => true
  end.

(** The message of what was thrown can be searched with [.includes]: it
    is a string or an array. *)
Definition searchable (v : JsValue) : bool :=
  match v with
  | Some (JString _) | Some (JArray _) => true
  | _ => false
  end.

(** What the duplicate lookup hands to the submission as [data]. *)
Definition existing_application (env : Env) (job user : string)
  (rows : list ApplicationRow) : option string :=
  match application_lookup_error env with
  | Some _ => None
  | None => data (maybeSingle (map id (applications_of job user rows)))
  end.

(** The answer the sub-flow gets and the write the backend makes of it,
    when every step up to the write-back succeeds; [now] is the clock
    reading put into the request. *)
Definition accepted_write (env : Env) (url jobDescription resumeFilePath : string)
  (now : string) : option (Json * Write) :=
  match error (storage_download env resumeFilePath) with
  | Some _ => None
  | None =>
      match http_post env url
              (scoring_form jobDescription
                 (data (storage_download env resumeFilePath))) with
      | NetworkFailure _ => None
      | HttpResponse code js =>
          if ok code then
            match js with
            | None => None
            | Some result =>
                if is_null result then None
                else
                  match update_error env,
                        backend_reads env (scoring_patch result now) with
                  | None, Some wr => Some (result, wr)
                  | _, _ => None
                  end
            end
          else None
      end
  end.








(** More sample data. *)
Module Scenario.

(** A second cached entry, of another applicant. *)
Definition other_cached : ApplicationWithDetails :=
  {| application_id := "app-7"; d_job_id := "job-1"; d_user_id := "user-b";
     d_status := reviewed; d_applied_at := "2024-04-28T09:00:00.000Z";
     d_cover_letter := Some "Dear team"; d_ats_score := Some JNull;
     d_predicted_category := Some JNull; d_confidence_score := Some JNull;
     d_ats_calculated_at := None;
     job_title := "Senior Go Engineer"; job_company := "Acme";
     job_location := "Remote"; job_type := "full-time"; job_salary := None;
     job_description := "Senior Go Engineer";
     first_name := "Bob"; last_name := "Roe"; email := None; phone := None;
     applicant_company := None; applicant_position := None;
     resume_file_name := None; resume_file_path := None;
     resume_uploaded_at := None |}.

Definition rpc_rows : Response (list ApplicationWithDetails) :=
  mkResponse (Some [Sample.cached; other_cached]) None.

Definition rpc_down : Response (list ApplicationWithDetails) :=
  mkResponse None (Some Sample.unreachable).

(** The backend refuses the insert. *)
Definition env_insert_refused : Env :=
  {| resume_lookup := resume_lookup Sample.env;
     application_lookup_error := None;
     insert_error :=
       Some (ErrorValue
               [("code", JString "42501");
                ("message",
                 JString "new row violates row-level security policy")]);
     generated_id := "app-1";
     server_now := server_now Sample.env;
     update_error := None;
     storage_download := storage_download Sample.env;
     storage_sign := storage_sign Sample.env;
     http_post := http_post Sample.env;
     clock := clock Sample.env;
     cast_number := cast_number Sample.env;
     cast_text := cast_text Sample.env;
     cast_error := cast_error Sample.env;
     engine_message := engine_message Sample.env |}.

(** The storage cannot sign. *)
Definition env_sign_refused : Env :=
  {| resume_lookup := resume_lookup Sample.env;
     application_lookup_error := None;
     insert_error := None;
     generated_id := "app-1";
     server_now := server_now Sample.env;
     update_error := None;
     storage_download := storage_download Sample.env;
     storage_sign := fun _ _ => mkResponse None (Some (ErrorInstance "Object not found"));
     http_post := http_post Sample.env;
     clock := clock Sample.env;
     cast_number := cast_number Sample.env;
     cast_text := cast_text Sample.env;
     cast_error := cast_error Sample.env;
     engine_message := engine_message Sample.env |}.

(** The backend refuses the insert with an error body that has no
    message. *)
Definition env_insert_refused_bare : Env :=
  {| resume_lookup := resume_lookup Sample.env;
     application_lookup_error := None;
     insert_error := Some (ErrorValue [("code", JString "42501")]);
     generated_id := "app-1";
     server_now := server_now Sample.env;
     update_error := None;
     storage_download := storage_download Sample.env;
     storage_sign := storage_sign Sample.env;
     http_post := http_post Sample.env;
     clock := clock Sample.env;
     cast_number := cast_number Sample.env;
     cast_text := cast_text Sample.env;
     cast_error := cast_error Sample.env;
     engine_message := engine_message Sample.env |}.

(** The scoring service answers 200 with a body that has none of the
    documented fields. *)
Definition env_empty_answer : Env :=
  {| resume_lookup := resume_lookup Sample.env;
     application_lookup_error := None;
     insert_error := None;
     generated_id := "app-1";
     server_now := server_now Sample.env;
     update_error := None;
     storage_download := storage_download Sample.env;
     storage_sign := storage_sign Sample.env;
     http_post := fun _ _ => HttpResponse 200 (Some (JObject []));
     clock := clock Sample.env;
     cast_number := cast_number Sample.env;
     cast_text := cast_text Sample.env;
     cast_error := cast_error Sample.env;
     engine_message := engine_message Sample.env |}.


(** The scoring service answers 200 with a body that is not JSON. *)
Definition env_unreadable_answer : Env :=
  {| resume_lookup := resume_lookup Sample.env;
     application_lookup_error := None;
     insert_error := None;
     generated_id := "app-1";
     server_now := server_now Sample.env;
     update_error := None;
     storage_download := storage_download Sample.env;
     storage_sign := storage_sign Sample.env;
     http_post := fun _ _ => HttpResponse 200 None;
     clock := clock Sample.env;
     cast_number := cast_number Sample.env;
     cast_text := cast_text Sample.env;
     cast_error := cast_error Sample.env;
     engine_message := engine_message Sample.env |}.

End Scenario.


(** ** Basic facts *)

Lemma truthy_false_iff (s : string) : truthy s = false <-> s = "".
Proof.
  destruct s; simpl; split; intro H; try reflexivity; discriminate H.
Qed.

Lemma rescored_db (env : Env) (applicationId : string) (result : Json) (w : World) :
  db_applications (setApplications_rescored env applicationId result w) = db_applications w.
Proof.
  unfold setApplications_rescored.
  destruct (rescore_all env applicationId result (applications w) (ticks w)).
  reflexivity.
Qed.

Lemma rescored_calls (env : Env) (applicationId : string) (result : Json) (w : World) :
  calls (setApplications_rescored env applicationId result w) = calls w.
Proof.
  unfold setApplications_rescored.
  destruct (rescore_all env applicationId result (applications w) (ticks w)).
  reflexivity.
Qed.

Lemma rescored_applications (env : Env) (applicationId : string) (result : Json)
  (w : World) :
  applications (setApplications_rescored env applicationId result w) =
  fst (rescore_all env applicationId result (applications w) (ticks w)).
Proof.
  unfold setApplications_rescored.
  destruct (rescore_all env applicationId result (applications w) (ticks w)).
  reflexivity.
Qed.

(** A write never moves a row to another applicant or job, and keeps its
    identity. *)
Lemma apply_write_keys (wr : Write) (r : ApplicationRow) :
  id (apply_write wr r) = id r /\
  job_id (apply_write wr r) = job_id r /\
  user_id (apply_write wr r) = user_id r.
Proof. destruct wr; simpl; auto. Qed.

Lemma applications_of_update (job user application : string) (wr : Write)
  (rows : list ApplicationRow) :
  applications_of job user (update_where_id application wr rows) =
  update_where_id application wr (applications_of job user rows).
Proof.
  unfold applications_of, update_where_id.
  induction rows as [| r rows IH]; simpl; [reflexivity |].
  destruct (String.eqb (id r) application) eqn:Hid.
  - destruct (apply_write_keys wr r) as (_ & Hj & Hu).
    rewrite Hj, Hu.
    destruct (String.eqb (job_id r) job && String.eqb (user_id r) user);
      simpl; rewrite ?Hid, IH; reflexivity.
  - destruct (String.eqb (job_id r) job && String.eqb (user_id r) user);
      simpl; rewrite ?Hid, IH; reflexivity.
Qed.

Lemma update_where_id_length (application : string) (wr : Write)
  (rows : list ApplicationRow) :
  length (update_where_id application wr rows) = length rows.
Proof. unfold update_where_id. apply length_map. Qed.


(** What the backend makes of an answer in the documented shape. *)
Lemma backend_reads_documented (env : Env) (result : Json) (score : number)
  (category : string) (confidence : number) (now : string) :
  documented_shape result score category confidence ->
  backend_reads env (scoring_patch result now) =
  Some (WriteScoring (Some (Some score)) (Some (Some category))
                     (Some (Some confidence)) now) /\
  is_null result = false /\ announceable result = true.
Proof.
  intros (Hs & Hc & Hf). unfold scoring_patch, announceable.
  rewrite Hs, Hc, Hf. cbn.
  repeat split. destruct result; try reflexivity. discriminate Hs.
Qed.

(** A scoring request is taken as a scoring write with the time it
    carries. *)
Lemma backend_reads_scoring (env : Env) (score category confidence : JsValue)
  (at_ : string) (wr : Write) :
  backend_reads env (PatchScoring score category confidence at_) = Some wr ->
  exists sc cat conf, wr = WriteScoring sc cat conf at_.
Proof.
  unfold backend_reads.
  destruct (sent (takes_number env) score) as [sc |]; [| discriminate].
  destruct (sent (takes_text env) category) as [cat |]; [| discriminate].
  destruct (sent (takes_number env) confidence) as [conf |]; [| discriminate].
  intro H. injection H as <-. exists sc, cat, conf. reflexivity.
Qed.

(** The error callback raises at most a notification. *)
Lemma onError_frame (e : JsError) (w : World) :
  let w' := useApplications.onError e w in
  db_applications w' = db_applications w /\ calls w' = calls w /\
  console w' = console w /\ invalidations w' = invalidations w /\
  applications w' = applications w /\ ticks w' = ticks w.
Proof.
  cbv zeta. unfold useApplications.onError.
  destruct (message e) as [[| b | q | text | items | fields] |];
    try (repeat split; fail).
  - destruct (String.eqb text "RESUME_REQUIRED"); [repeat split |].
    destruct (includes text "already applied"); repeat split.
  - destruct (array_includes items "already applied"); repeat split.
Qed.

(** ** The two scoring functions, answer by answer *)

(** The reviewer's run with the world it leaves. *)
Lemma calculateAtsScore_outcome (env : Env)
  (applicationId jobDescription resumeFilePath : string) (w : World) :
  let file := storage_download env resumeFilePath in
  let url := (useHRApplications.ATS_API_URL ++ "/analyze-resume")%string in
  let body := scoring_form jobDescription (data file) in
  let w1 := log_call (StorageDownload "resumes" resumeFilePath) (set_loading true w) in
  let w2 := log_call (HttpPost url body) w1 in
  let failed := fun (e : JsError) (wf : World) =>
    (Return (mkHookResult false None (Some (error_text e))),
     set_loading false (log_console "Error calculating ATS score:" wf)) in
  useHRApplications.calculateAtsScore env applicationId jobDescription
    resumeFilePath w =
  match error file with
  | Some e => failed e w1
  | None =>
      match http_post env url body with
      | NetworkFailure e => failed e w2
      | HttpResponse code js =>
          if ok code then
            match js with
            | None => failed (ErrorInstance (engine_message env InvalidJson)) w2
            | Some result =>
                if is_null result
                then failed (TypeError (engine_message env
                                          (PropertyOfNull "ats_score"))) w2
                else
                  let patch := scoring_patch result (clock env (ticks w)) in
                  let w3 := log_call (UpdateApplication applicationId patch)
                                     (tick w2) in
                  match update_error env with
                  | Some e => failed e w3
                  | None =>
                      match backend_reads env patch with
                      | None => failed (cast_error env) w3
                      | Some wr =>
                          (Return (mkHookResult true (Some result) None),
                           set_loading false
                             (setApplications_rescored env applicationId result
                                (set_db (update_where_id applicationId wr) w3)))
                      end
                  end
            end
          else failed (new_Error "Failed to calculate ATS score") w2
      end
  end.
Proof.
  cbv zeta.
  unfold useHRApplications.calculateAtsScore, try_finally, try_catch, bind, effect,
    download, fetch_post.
  cbn [fst snd].
  destruct (error (storage_download env resumeFilePath)); [reflexivity |].
  cbn [fst snd].
  destruct (http_post env _ _) as [e | code js]; [reflexivity |].
  cbn [fst snd]. destruct (ok code); [| reflexivity].
  destruct js as [result |]; [| reflexivity].
  unfold response_json, read, ret. cbn [negb].
  destruct (is_null result); [reflexivity |].
  unfold update_application, bind, Date_now_toISOString.
  cbn -[backend_reads scoring_patch].
  destruct (update_error env); [reflexivity |].
  destruct (backend_reads env _); reflexivity.
Qed.

(** The applicant's run with the world it leaves. *)
Lemma calculateAndSaveAtsScore_outcome (env : Env)
  (applicationId jobDescription resumeFilePath : string) (w : World) :
  let file := storage_download env resumeFilePath in
  let url := (useApplications.ATS_API_URL ++ "/analyze-resume")%string in
  let body := scoring_form jobDescription (data file) in
  let w1 := log_call (StorageDownload "resumes" resumeFilePath) w in
  let w2 := log_call (HttpPost url body) w1 in
  let failed := fun (e : JsError) (wf : World) =>
    (@Throw Json e, log_console "Error in calculateAndSaveAtsScore:" wf) in
  useApplications.calculateAndSaveAtsScore env applicationId jobDescription
    resumeFilePath w =
  match error file with
  | Some e => failed e w1
  | None =>
      match http_post env url body with
      | NetworkFailure e => failed e w2
      | HttpResponse code js =>
          if ok code then
            match js with
            | None => failed (ErrorInstance (engine_message env InvalidJson)) w2
            | Some result =>
                if is_null result
                then failed (TypeError (engine_message env
                                          (PropertyOfNull "ats_score"))) w2
                else
                  let patch := scoring_patch result (clock env (ticks w)) in
                  let w3 := log_call (UpdateApplication applicationId patch)
                                     (tick w2) in
                  match update_error env with
                  | Some e => failed e w3
                  | None =>
                      match backend_reads env patch with
                      | None => failed (cast_error env) w3
                      | Some wr =>
                          let w4 := set_db (update_where_id applicationId wr) w3 in
                          let score := property result "ats_score" in
                          let category := property result "predicted_category" in
                          match number_of score with
                          | None =>
                              failed (TypeError (engine_message env
                                                   (toFixed_fault score))) w4
                          | Some q =>
                              if template_ok category
                              then (Return result,
                                    count_invalidation
                                      (push_toast (ToastAtsScore q category) w4))
                              else failed (TypeError (engine_message env
                                                        NotAPrimitive)) w4
                          end
                      end
                  end
            end
          else failed (new_Error "Failed to calculate ATS score") w2
      end
  end.
Proof.
  cbv zeta.
  unfold useApplications.calculateAndSaveAtsScore, try_catch, bind, effect,
    download, fetch_post.
  cbn [fst snd].
  destruct (error (storage_download env resumeFilePath)); [reflexivity |].
  cbn [fst snd].
  destruct (http_post env _ _) as [e | code js]; [reflexivity |].
  cbn [fst snd]. destruct (ok code); [| reflexivity].
  destruct js as [result |]; [| reflexivity].
  unfold response_json, read, ret. cbn [negb].
  destruct (is_null result); [reflexivity |].
  unfold update_application, bind, Date_now_toISOString.
  cbn -[backend_reads scoring_patch].
  destruct (update_error env); [reflexivity |].
  destruct (backend_reads env _); [| reflexivity].
  cbn -[number_of template_ok]. unfold toFixed, in_template, ret, throw.
  destruct (number_of (property result "ats_score")); [| reflexivity].
  destruct (template_ok (property result "predicted_category")); reflexivity.
Qed.

(** ** The scoring sub-flow, step by step *)

(** What one run of the sub-flow does, by the answers it gets: the calls it
    issues, whether it reports a result, and the table it leaves. *)
Lemma run_scoring_spec (site : CallSite) (env : Env)
  (applicationId jobDescription resumeFilePath : string) (w : World) :
  let file := storage_download env resumeFilePath in
  let url := (base_url site ++ "/analyze-resume")%string in
  let body := scoring_form jobDescription (data file) in
  let D := StorageDownload "resumes" resumeFilePath in
  let P := HttpPost url body in
  let now := clock env (ticks w) in
  let out := run_scoring site env applicationId jobDescription resumeFilePath w in
  let stopped := fun issued =>
    fst out = None /\ db_applications (snd out) = db_applications w /\
    calls (snd out) = calls w ++ issued in
  match error file with
  | Some _ => stopped [D]
  | None =>
      match http_post env url body with
      | NetworkFailure _ => stopped [D; P]
      | HttpResponse code js =>
          if ok code then
            match js with
            | None => stopped [D; P]
            | Some result =>
                if is_null result then stopped [D; P]
                else
                  let patch := scoring_patch result now in
                  let U := UpdateApplication applicationId patch in
                  match update_error env with
                  | Some _ => stopped [D; P; U]
                  | None =>
                      match backend_reads env patch with
                      | None => stopped [D; P; U]
                      | Some wr =>
                          calls (snd out) = calls w ++ [D; P; U] /\
                          db_applications (snd out) =
                            update_where_id applicationId wr (db_applications w) /\
                          fst out =
                            match site with
                            | Reviewer => Some result
                            | Applicant =>
                                if announceable result then Some result else None
                            end
                      end
                  end
            end
          else stopped [D; P]
      end
  end.
Proof.
  destruct site; cbv zeta; unfold run_scoring, base_url.
  - rewrite calculateAtsScore_outcome. cbv zeta.
    destruct (error (storage_download env resumeFilePath));
      [repeat split |].
    destruct (http_post env _ _) as [e | code js];
      [repeat split; cbn; now rewrite <- app_assoc |].
    destruct (ok code); [| repeat split; cbn; now rewrite <- app_assoc].
    destruct js as [result |]; [| repeat split; cbn; now rewrite <- app_assoc].
    destruct (is_null result); [repeat split; cbn; now rewrite <- app_assoc |].
    destruct (update_error env);
      [repeat split; cbn; now rewrite <- !app_assoc |].
    destruct (backend_reads env _);
      [| repeat split; cbn; now rewrite <- !app_assoc].
    cbn [fst snd success result_data].
    cbn [calls db_applications set_loading].
    rewrite rescored_calls, rescored_db.
    repeat split. cbn. now rewrite <- !app_assoc.
  - rewrite calculateAndSaveAtsScore_outcome. cbv zeta.
    destruct (error (storage_download env resumeFilePath));
      [repeat split |].
    destruct (http_post env _ _) as [e | code js];
      [repeat split; cbn; now rewrite <- app_assoc |].
    destruct (ok code); [| repeat split; cbn; now rewrite <- app_assoc].
    destruct js as [result |]; [| repeat split; cbn; now rewrite <- app_assoc].
    destruct (is_null result); [repeat split; cbn; now rewrite <- app_assoc |].
    destruct (update_error env);
      [repeat split; cbn; now rewrite <- !app_assoc |].
    destruct (backend_reads env _);
      [| repeat split; cbn; now rewrite <- !app_assoc].
    unfold announceable.
    destruct (number_of (property result "ats_score"));
      [destruct (template_ok (property result "predicted_category")) |];
      repeat split; cbn; now rewrite <- !app_assoc.
Qed.

(** One run writes at most once, and the table it leaves is the old one or
    the old one with the accepted write applied. *)
Lemma run_scoring_db (applicationId : string) (site : CallSite) (env : Env)
  (jobDescription resumeFilePath : string) (w : World) :
  let out := run_scoring site env applicationId jobDescription resumeFilePath w in
  (exists issued,
     calls (snd out) = calls w ++ issued /\
     (length (filter is_write issued) <= 1)%nat) /\
  ((fst out = None /\ db_applications (snd out) = db_applications w) \/
   (exists result wr,
      is_null result = false /\
      backend_reads env (scoring_patch result (clock env (ticks w))) = Some wr /\
      db_applications (snd out) =
        update_where_id applicationId wr (db_applications w) /\
      (fst out = Some result \/ fst out = None))).
Proof.
  cbv zeta.
  pose proof (run_scoring_spec site env applicationId jobDescription
                resumeFilePath w) as Hspec.
  cbv zeta in Hspec.
  destruct (error (storage_download env resumeFilePath)).
  { destruct Hspec as (Hres & Hdb & Hcalls).
    split; [eexists; split; [exact Hcalls | simpl; lia] | left; auto]. }
  destruct (http_post env _ _) as [e | code js].
  { destruct Hspec as (Hres & Hdb & Hcalls).
    split; [eexists; split; [exact Hcalls | simpl; lia] | left; auto]. }
  destruct (ok code).
  2:{ destruct Hspec as (Hres & Hdb & Hcalls).
      split; [eexists; split; [exact Hcalls | simpl; lia] | left; auto]. }
  destruct js as [result |].
  2:{ destruct Hspec as (Hres & Hdb & Hcalls).
      split; [eexists; split; [exact Hcalls | simpl; lia] | left; auto]. }
  destruct (is_null result) eqn:Hnull.
  { destruct Hspec as (Hres & Hdb & Hcalls).
    split; [eexists; split; [exact Hcalls | simpl; lia] | left; auto]. }
  destruct (update_error env).
  { destruct Hspec as (Hres & Hdb & Hcalls).
    split; [eexists; split; [exact Hcalls | simpl; lia] | left; auto]. }
  destruct (backend_reads env _) as [wr |] eqn:Hreads.
  2:{ destruct Hspec as (Hres & Hdb & Hcalls).
      split; [eexists; split; [exact Hcalls | simpl; lia] | left; auto]. }
  destruct Hspec as (Hcalls & Hdb & Hres).
  split; [eexists; split; [exact Hcalls | simpl; lia] |].
  right. exists result, wr. repeat split; try assumption.
  rewrite Hres. destruct site; [left; reflexivity |].
  destruct (announceable result); [left | right]; reflexivity.
Qed.

(** A failing step of the sub-flow leaves the table as it found it. *)
Lemma run_scoring_failure (site : CallSite) (env : Env)
  (applicationId jobDescription resumeFilePath : string) (w : World) :
  let url := (base_url site ++ "/analyze-resume")%string in
  let body := scoring_form jobDescription
                (data (storage_download env resumeFilePath)) in
  download_fails env resumeFilePath \/ scoring_call_fails env url body \/
  write_back_fails env \/ value_refused env url body ->
  let out := run_scoring site env applicationId jobDescription resumeFilePath w in
  fst out = None /\ db_applications (snd out) = db_applications w.
Proof.
  unfold download_fails, scoring_call_fails, write_back_fails, value_refused.
  cbv zeta. intros Hfail.
  pose proof (run_scoring_spec site env applicationId jobDescription
                resumeFilePath w) as Hspec.
  cbv zeta in Hspec.
  destruct (error (storage_download env resumeFilePath)) as [e |];
    [split; apply Hspec |].
  destruct (http_post env _ _) as [e | code js]; [split; apply Hspec |].
  destruct (ok code) eqn:Hok; [| split; apply Hspec].
  destruct js as [result |]; [| split; apply Hspec].
  destruct (is_null result) eqn:Hnull; [split; apply Hspec |].
  destruct (update_error env); [split; apply Hspec |].
  destruct (backend_reads env _) eqn:Hreads; [| split; apply Hspec].
  destruct Hfail as [H | [[H | [H | H]] | [H | (c & r & H & Hno)]]];
    try discriminate H; try (contradiction H; reflexivity).
  - injection H as ->. discriminate Hnull.
  - injection H as _ <-. rewrite Hno in Hreads. discriminate Hreads.
Qed.


(** ** Properties of the scoring sub-flow *)




(** The same defect in the other direction: when the service answers 200
    with an empty object to the applicant hook, the run fails, yet the time
    of scoring has been written. *)
Lemma empty_answer_fails_after_the_write :
  let out := run_scoring Applicant Scenario.env_empty_answer "app-0"
               "Senior Go Engineer" "user-a/cv.pdf" Sample.applied_world in
  fst out = None /\
  map scoring_part (db_applications (snd out)) =
    [(Some (60 # 1), Some "Data Science", Some (1 # 2),
      Some "2024-05-01T10:00:01.000Z")].
Proof. vm_compute. repeat split. Qed.





(** C9.  The two call sites address different base URLs.  When the two
    deployments answer alike, a run at the reviewer's site and a run at the
    applicant's site from the same world with the same arguments issue the
    same calls in the same order up to the address of the post, and leave
    the same [applications] table: the download alone when it fails; the
    download and one post of the same two-field body when the service
    fails; the download, the post and one update that carries the score,
    category and confidence of the answer and the time of the write
    otherwise.  That update changes the same rows in the same way at both
    sites when the backend accepts it and none when it refuses.  Whatever
    the applicant's site reports, the reviewer's site reports too; on an
    answer in the documented shape both report it, and the rows carry its
    four values. *)
Theorem scoring_call_sites_agree (env : Env)
  (applicationId jobDescription resumeFilePath : string) (w : World)
  (Hsame : forall body,
     http_post env (base_url Reviewer ++ "/analyze-resume") body =
     http_post env (base_url Applicant ++ "/analyze-resume") body) :
  let file := storage_download env resumeFilePath in
  let body := [("job_description", FormText jobDescription);
               ("resume_file", file_field (data file))] in
  let D := StorageDownload "resumes" resumeFilePath in
  let PR := HttpPost (base_url Reviewer ++ "/analyze-resume") body in
  let PA := HttpPost (base_url Applicant ++ "/analyze-resume") body in
  let now := clock env (ticks w) in
  let hr := run_scoring Reviewer env applicationId jobDescription resumeFilePath w in
  let js := run_scoring Applicant env applicationId jobDescription resumeFilePath w in
  String.eqb (base_url Reviewer) (base_url Applicant) = false /\
  db_applications (snd hr) = db_applications (snd js) /\
  map forget_url (calls (snd hr)) = map forget_url (calls (snd js)) /\
  (forall result, fst js = Some result -> fst hr = Some result) /\
  (download_fails env resumeFilePath ->
     calls (snd hr) = calls w ++ [D] /\ calls (snd js) = calls w ++ [D] /\
     db_applications (snd hr) = db_applications w /\
     fst hr = None /\ fst js = None) /\
  (error file = None ->
   scoring_call_fails env (base_url Applicant ++ "/analyze-resume") body ->
     calls (snd hr) = calls w ++ [D; PR] /\ calls (snd js) = calls w ++ [D; PA] /\
     db_applications (snd hr) = db_applications w /\
     fst hr = None /\ fst js = None) /\
  (error file = None ->
   forall code result,
     http_post env (base_url Applicant ++ "/analyze-resume") body =
       HttpResponse code (Some result) ->
     ok code = true -> result <> JNull ->
     let patch := PatchScoring (property result "ats_score")
                               (property result "predicted_category")
                               (property result "confidence") now in
     let U := UpdateApplication applicationId patch in
     calls (snd hr) = calls w ++ [D; PR; U] /\
     calls (snd js) = calls w ++ [D; PA; U] /\
     (forall wr, update_error env = None -> backend_reads env patch = Some wr ->
        db_applications (snd hr) =
          update_where_id applicationId wr (db_applications w) /\
        fst hr = Some result /\
        fst js = if announceable result then Some result else None) /\
     (write_back_fails env \/ backend_reads env patch = None ->
        db_applications (snd hr) = db_applications w /\
        fst hr = None /\ fst js = None) /\
     (forall score category confidence,
        documented_shape result score category confidence ->
        update_error env = None ->
        patch = PatchScoring (Some (JNumber score)) (Some (JString category))
                             (Some (JNumber confidence)) now /\
        db_applications (snd hr) =
          update_where_id applicationId
            (WriteScoring (Some (Some score)) (Some (Some category))
                          (Some (Some confidence)) now)
            (db_applications w) /\
        fst hr = Some result /\ fst js = Some result)).
Proof.
  cbv zeta.
  split; [reflexivity |].
  pose proof (run_scoring_spec Reviewer env applicationId jobDescription
                resumeFilePath w) as Hr.
  pose proof (run_scoring_spec Applicant env applicationId jobDescription
                resumeFilePath w) as Ha.
  cbv zeta in Hr, Ha. rewrite Hsame in Hr.
  unfold scoring_form, scoring_patch in Hr, Ha.
  unfold download_fails, scoring_call_fails, write_back_fails.
  destruct (error (storage_download env resumeFilePath)) as [e |].
  { destruct Hr as (Hr1 & Hr2 & Hr3), Ha as (Ha1 & Ha2 & Ha3).
    rewrite Hr1, Hr2, Hr3, Ha1, Ha2, Ha3.
    repeat split; discriminate. }
  destruct (http_post env _ _) as [e | code js].
  { destruct Hr as (Hr1 & Hr2 & Hr3), Ha as (Ha1 & Ha2 & Ha3).
    rewrite Hr1, Hr2, Hr3, Ha1, Ha2, Ha3.
    split; [reflexivity |].
    split; [rewrite !map_app; reflexivity |].
    split; [discriminate |].
    split; [intro H; contradiction H; reflexivity |].
    split; [auto |].
    intros _ code result H. discriminate H. }
  destruct (ok code) eqn:Hok.
  2:{ destruct Hr as (Hr1 & Hr2 & Hr3), Ha as (Ha1 & Ha2 & Ha3).
      rewrite Hr1, Hr2, Hr3, Ha1, Ha2, Ha3.
      split; [reflexivity |].
      split; [rewrite !map_app; reflexivity |].
      split; [discriminate |].
      split; [intro H; contradiction H; reflexivity |].
      split; [auto |].
      intros _ code' result H Hok'. injection H as Hc _. subst code'. congruence. }
  destruct js as [result |].
  2:{ destruct Hr as (Hr1 & Hr2 & Hr3), Ha as (Ha1 & Ha2 & Ha3).
      rewrite Hr1, Hr2, Hr3, Ha1, Ha2, Ha3.
      split; [reflexivity |].
      split; [rewrite !map_app; reflexivity |].
      split; [discriminate |].
      split; [intro H; contradiction H; reflexivity |].
      split; [auto |].
      intros _ code' result H. discriminate H. }
  destruct (is_null result) eqn:Hnull.
  { destruct Hr as (Hr1 & Hr2 & Hr3), Ha as (Ha1 & Ha2 & Ha3).
    rewrite Hr1, Hr2, Hr3, Ha1, Ha2, Ha3.
    split; [reflexivity |].
    split; [rewrite !map_app; reflexivity |].
    split; [discriminate |].
    split; [intro H; contradiction H; reflexivity |].
    split; [auto |].
    intros _ code' r' H _ Hnn. injection H as _ Hr. subst r'.
    destruct result; try discriminate Hnull. contradiction Hnn. reflexivity. }
  destruct (update_error env) as [ue |].
  { destruct Hr as (Hr1 & Hr2 & Hr3), Ha as (Ha1 & Ha2 & Ha3).
    rewrite Hr1, Hr2, Hr3, Ha1, Ha2, Ha3.
    split; [reflexivity |].
    split; [rewrite !map_app; reflexivity |].
    split; [discriminate |].
    split; [intro H; contradiction H; reflexivity |].
    split.
    { intros _ [H | [H | H]]; try discriminate H.
      injection H as ->. discriminate Hnull. }
    intros _ code' r' H _ _. injection H as _ Hr. subst r'.
    split; [reflexivity |]. split; [reflexivity |].
    split; [intros wr H; discriminate H |].
    split; [auto |].
    intros sc cat conf _ H. discriminate H. }
  destruct (backend_reads env _) as [wr |] eqn:Hreads.
  2:{ destruct Hr as (Hr1 & Hr2 & Hr3), Ha as (Ha1 & Ha2 & Ha3).
      rewrite Hr1, Hr2, Hr3, Ha1, Ha2, Ha3.
      split; [reflexivity |].
      split; [rewrite !map_app; reflexivity |].
      split; [discriminate |].
      split; [intro H; contradiction H; reflexivity |].
      split.
      { intros _ [H | [H | H]]; try discriminate H.
        injection H as ->. discriminate Hnull. }
      intros _ code' r' H _ _. injection H as _ Hr. subst r'.
      rewrite Hreads.
      split; [reflexivity |]. split; [reflexivity |].
      split; [intros wr _ H; discriminate H |].
      split; [auto |].
      intros sc cat conf Hdoc _.
      destruct (backend_reads_documented env result sc cat conf
                  (clock env (ticks w)) Hdoc) as (Hreads' & _).
      unfold scoring_patch in Hreads'. congruence. }
  destruct Hr as (Hr1 & Hr2 & Hr3), Ha as (Ha1 & Ha2 & Ha3).
  rewrite Hr1, Hr2, Hr3, Ha1, Ha2, Ha3.
  split; [reflexivity |].
  split; [rewrite !map_app; reflexivity |].
  split; [intros r H; destruct (announceable result); congruence |].
  split; [intro H; contradiction H; reflexivity |].
  split.
  { intros _ [H | [H | H]]; try discriminate H.
    injection H as ->. discriminate Hnull. }
  intros _ code' r' H _ _. injection H as _ Hr. subst r'.
  rewrite Hreads.
  split; [reflexivity |]. split; [reflexivity |].
  split; [intros wr' _ Hwr; injection Hwr as <-; auto |].
  split; [intros [H | H]; [contradiction H; reflexivity | discriminate H] |].
  intros sc cat conf Hdoc _.
  destruct (backend_reads_documented env result sc cat conf
              (clock env (ticks w)) Hdoc) as (Hreads' & _ & Hann).
  unfold scoring_patch in Hreads'.
  rewrite Hreads in Hreads'. injection Hreads' as ->.
  rewrite Hann. destruct Hdoc as (-> & -> & ->). auto.
Qed.

(** C9, on the sample backend, whose scoring service gives the same answer
    at every address: both sites issue download, post and update, and both
    replace the four scoring fields of Alice's row by those of the
    answer. *)
Lemma scoring_call_sites_agree_witness :
  let hr := run_scoring Reviewer Sample.env "app-0" "Senior Go Engineer"
              "user-a/cv.pdf" Sample.applied_world in
  let js := run_scoring Applicant Sample.env "app-0" "Senior Go Engineer"
              "user-a/cv.pdf" Sample.applied_world in
  map scoring_part (db_applications (snd hr)) =
    [(Some (175 # 2), Some "Software Engineering", Some (91 # 100),
      Some "2024-05-01T10:00:01.000Z")] /\
  db_applications (snd hr) = db_applications (snd js) /\
  length (calls (snd hr)) = 3%nat /\
  map forget_url (calls (snd hr)) = map forget_url (calls (snd js)) /\
  fst hr = Some Sample.result /\ fst js = Some Sample.result.
Proof.
  cbv zeta.
  destruct (scoring_call_sites_agree Sample.env "app-0" "Senior Go Engineer"
              "user-a/cv.pdf" Sample.applied_world (fun body => eq_refl))
    as (_ & Hdb & Hcalls & _ & _ & _ & Hgood).
  assert (Hnn : Sample.result <> JNull) by discriminate.
  destruct (Hgood eq_refl 200%Z Sample.result eq_refl eq_refl Hnn)
    as (Hissued & _ & _ & _ & Hdoc).
  destruct (Hdoc (175 # 2) "Software Engineering"%string (91 # 100)
              (conj eq_refl (conj eq_refl eq_refl)) eq_refl)
    as (_ & Hrows & Hr & Ha).
  split; [rewrite Hrows; reflexivity |].
  split; [exact Hdb |].
  split; [rewrite Hissued; reflexivity |].
  split; [exact Hcalls |].
  split; [exact Hr | exact Ha].
Defined.

(** ** Properties of the reviewer hook *)

(** C8.  With an empty file reference [getResumeDownloadUrl] gives null and
    leaves the world as it was: no call is issued at all.  With a non-empty
    reference it issues exactly one call, the request for a signed URL of
    that file in the [resumes] bucket, with an expiry of 3600 seconds. *)
Theorem getResumeDownloadUrl_guard (env : Env) (w : World) :
  useHRApplications.getResumeDownloadUrl env "" w = (Return None, w) /\
  forall (c : Ascii.ascii) (rest : string),
    let filePath := String c rest in
    calls (snd (useHRApplications.getResumeDownloadUrl env filePath w)) =
    calls w ++ [StorageCreateSignedUrl "resumes" filePath 3600].
Proof.
  split; [reflexivity |].
  intros c rest. cbv zeta.
  unfold useHRApplications.getResumeDownloadUrl, try_catch, bind, createSignedUrl.
  simpl.
  destruct (error (storage_sign env (String c rest) 3600)); simpl; [reflexivity |].
  destruct (data (storage_sign env (String c rest) 3600)); reflexivity.
Qed.

Lemma with_status_same_but_status (newStatus : Status) (app : ApplicationWithDetails) :
  same_but_status app (with_status newStatus app).
Proof. unfold same_but_status. simpl. repeat split. Qed.

Lemma same_but_status_refl (app : ApplicationWithDetails) : same_but_status app app.
Proof. unfold same_but_status. repeat split. Qed.

(** C10.  When the backend refuses the update, [updateApplicationStatus]
    resolves to [success: false] with an error message and the cached list
    is the one before the call.  When the backend accepts it, the function
    resolves to [success: true] and the cached list keeps its length and
    order; an entry whose [application_id] is [applicationId] has the new
    status and all its other fields as before, and every other entry is
    untouched. *)
Theorem updateApplicationStatus_frame (env : Env) (applicationId : string)
  (newStatus : Status) (w : World) :
  let out := useHRApplications.updateApplicationStatus env applicationId newStatus w in
  (forall e, update_error env = Some e ->
     fst out = Return {| success := false; result_data := None;
                         result_error := Some (error_text e) |} /\
     applications (snd out) = applications w /\
     db_applications (snd out) = db_applications w) /\
  (update_error env = None ->
     fst out = Return {| success := true; result_data := None;
                         result_error := None |} /\
     length (applications (snd out)) = length (applications w) /\
     forall i app, nth_error (applications w) i = Some app ->
       exists app',
         nth_error (applications (snd out)) i = Some app' /\
         same_but_status app app' /\
         (application_id app = applicationId -> d_status app' = newStatus) /\
         (application_id app <> applicationId -> app' = app)).
Proof.
  cbv zeta.
  unfold useHRApplications.updateApplicationStatus, try_catch, bind,
    update_application, effect.
  split.
  - intros e He. rewrite He. simpl. auto.
  - intros He. rewrite He. simpl.
    split; [reflexivity |].
    split; [apply length_map |].
    intros i app Hnth.
    rewrite nth_error_map, Hnth. simpl.
    destruct (String.eqb (application_id app) applicationId) eqn:Heq.
    + eexists; split; [reflexivity |].
      split; [apply with_status_same_but_status |].
      split; [reflexivity |].
      apply String.eqb_eq in Heq. intro Hne. contradiction.
    + eexists; split; [reflexivity |].
      split; [apply same_but_status_refl |].
      apply String.eqb_neq in Heq.
      split; [intro Hid; contradiction | reflexivity].
Qed.

(** C10, for the reviewer accepting Alice's application: the cached entry
    changes its status and nothing else. *)
Lemma updateApplicationStatus_frame_witness :
  let out := useHRApplications.updateApplicationStatus Sample.env "app-0" accepted
               Sample.reviewer_world in
  fst out = Return {| success := true; result_data := None; result_error := None |} /\
  length (applications (snd out)) = 1%nat.
Proof.
  cbv zeta.
  destruct (updateApplicationStatus_frame Sample.env "app-0" accepted
              Sample.reviewer_world) as (_ & Hok).
  destruct (Hok eq_refl) as (Hres & Hlen & _).
  split; [exact Hres | exact Hlen].
Defined.

(** ** The submission workflow *)

Lemma usable_file_path_none_iff (resume : Response ResumeData) :
  usable_file_path resume = None <->
  error resume <> None \/ data resume = None \/
  (exists resumeData, data resume = Some resumeData /\ file_path resumeData = "").
Proof.
  unfold usable_file_path.
  destruct (error resume) as [e |], (data resume) as [d |]; simpl.
  - split; [intros _; left; discriminate | reflexivity].
  - split; [intros _; left; discriminate | reflexivity].
  - destruct (truthy (file_path d)) eqn:Ht.
    + split; [discriminate |].
      intros [H | [H | (d' & Hd & Hp)]]; try congruence.
      injection Hd as <-. apply truthy_false_iff in Hp. congruence.
    + split; [| reflexivity].
      intros _. right. right. exists d. split; [reflexivity |].
      now apply truthy_false_iff.
  - split; [intros _; right; left; reflexivity | reflexivity].
Qed.

(** The résumé check settles the submission before anything else is asked
    of the backend. *)
Lemma applyToJob_resume_required (env : Env) (user : option User) (u : string)
  (jobId jobDescription : string) (coverLetter : option string) (w : World) :
  user_id_of user = Some u ->
  usable_file_path (resume_lookup env u) = None ->
  useApplications.applyToJob env user jobId jobDescription coverLetter w =
  (Failed (new_Error "RESUME_REQUIRED"),
   push_toast ToastResumeRequired (log_call (SelectLatestResume u) w)).
Proof.
  intros Hu Hmissing.
  unfold useApplications.applyToJob, useApplications.mutationFn.
  rewrite Hu. unfold bind, select_latest_resume. rewrite Hmissing.
  reflexivity.
Qed.

(** The submission once the two checks pass and the insert is accepted: it
    succeeds with the new identity, and its table and calls are those of
    the scoring sub-flow run right after the insert. *)
Lemma applyToJob_when_inserted (env : Env) (user : option User) (u : string)
  (jobId jobDescription : string) (coverLetter : option string) (w : World)
  (path : string) :
  user_id_of user = Some u ->
  usable_file_path (resume_lookup env u) = Some path ->
  applications_of jobId u (db_applications w) = [] ->
  insert_error env = None ->
  let payload := {| ins_job_id := jobId; ins_user_id := u; ins_status := pending;
                    ins_cover_letter := or_null coverLetter |} in
  let created := new_row payload (generated_id env) (server_now env) in
  let w1 := set_db (fun rows => rows ++ [created])
              (log_call (InsertApplication payload)
                 (log_call (SelectApplication jobId u)
                    (log_call (SelectLatestResume u) w))) in
  let out := useApplications.applyToJob env user jobId jobDescription coverLetter w in
  let sc := run_scoring Applicant env (generated_id env) jobDescription path w1 in
  fst out = Succeeded (Some (generated_id env)) /\
  db_applications (snd out) = db_applications (snd sc) /\
  calls (snd out) = calls (snd sc) /\
  toasts (snd out) = toasts (snd sc) ++ [ToastSubmitted].
Proof.
  intros Hu Hpath Hnone Hins. cbv zeta.
  unfold useApplications.applyToJob, useApplications.mutationFn, run_scoring.
  rewrite Hu.
  cbv beta iota delta [bind select_latest_resume].
  rewrite Hpath.
  cbv beta iota zeta delta [bind select_application insert_application].
  change (db_applications (log_call (SelectLatestResume u) w))
    with (db_applications w).
  rewrite Hnone, Hins.
  destruct (application_lookup_error env) as [le |];
    cbv beta iota zeta delta [bind try_catch effect ret data error maybeSingle map];
    destruct (useApplications.calculateAndSaveAtsScore env (generated_id env)
                jobDescription path _) as [[r | e] w2]; simpl; auto.
Qed.

(** After such a submission the pair has exactly one Application: the new
    one, still [pending], with the cover letter of the insert. *)
Lemma applyToJob_leaves_one (env : Env) (user : option User) (u : string)
  (jobId jobDescription : string) (coverLetter : option string) (w : World)
  (path : string) :
  user_id_of user = Some u ->
  usable_file_path (resume_lookup env u) = Some path ->
  applications_of jobId u (db_applications w) = [] ->
  insert_error env = None ->
  let out := useApplications.applyToJob env user jobId jobDescription coverLetter w in
  exists row,
    applications_of jobId u (db_applications (snd out)) = [row] /\
    id row = generated_id env /\ status row = pending /\
    cover_letter row = or_null coverLetter.
Proof.
  intros Hu Hpath Hnone Hins. cbv zeta.
  destruct (applyToJob_when_inserted env user u jobId jobDescription coverLetter w
              path Hu Hpath Hnone Hins) as (_ & Hdb & _ & _).
  cbv zeta in Hdb. rewrite Hdb.
  set (created := new_row _ (generated_id env) (server_now env)) in *.
  set (w1 := set_db _ _) in *.
  assert (Hpair : applications_of jobId u (db_applications w1) = [created]).
  { unfold applications_of in *. cbn [w1 db_applications set_db log_call].
    rewrite filter_app, Hnone. simpl. rewrite !String.eqb_refl. reflexivity. }
  destruct (run_scoring_db (generated_id env) Applicant env jobDescription path w1)
    as (_ & [(_ & Hsame) | (r & wr & _ & Hreads & Hnew & _)]).
  - rewrite Hsame, Hpair. exists created. repeat split.
  - apply backend_reads_scoring in Hreads.
    destruct Hreads as (sc & cat & conf & ->).
    rewrite Hnew, applications_of_update, Hpair. simpl.
    rewrite String.eqb_refl. eexists; split; [reflexivity |]. repeat split.
Qed.

(** The duplicate check, once the résumé check has passed and the lookup
    is answered with the one row of the pair. *)
Lemma applyToJob_duplicate (env : Env) (user : option User) (u : string)
  (jobId jobDescription : string) (coverLetter : option string) (w : World)
  (path : string) (row : ApplicationRow) :
  user_id_of user = Some u ->
  usable_file_path (resume_lookup env u) = Some path ->
  application_lookup_error env = None ->
  applications_of jobId u (db_applications w) = [row] ->
  useApplications.applyToJob env user jobId jobDescription coverLetter w =
  (Failed (new_Error "You have already applied to this job!"),
   push_toast ToastAlreadyApplied
     (log_call (SelectApplication jobId u) (log_call (SelectLatestResume u) w))).
Proof.
  intros Hu Hpath Hlookup Hrow.
  unfold useApplications.applyToJob, useApplications.mutationFn.
  rewrite Hu.
  cbv beta iota delta [bind select_latest_resume].
  rewrite Hpath.
  cbv beta iota zeta delta [bind select_application].
  change (db_applications (log_call (SelectLatestResume u) w))
    with (db_applications w).
  rewrite Hlookup, Hrow. reflexivity.
Qed.

(** Two submissions in a row for the same job: when the first one creates
    the Application, the second one, with the résumé still on file and the
    lookup answered, is rejected as a duplicate and changes nothing. *)
Lemma second_submission_is_rejected (env env' : Env) (user : option User)
  (u : string) (jobId jobDescription jobDescription' : string)
  (coverLetter coverLetter' : option string) (w : World) (path path' : string) :
  user_id_of user = Some u ->
  usable_file_path (resume_lookup env u) = Some path ->
  applications_of jobId u (db_applications w) = [] ->
  insert_error env = None ->
  usable_file_path (resume_lookup env' u) = Some path' ->
  application_lookup_error env' = None ->
  let first := useApplications.applyToJob env user jobId jobDescription coverLetter w in
  let second := useApplications.applyToJob env' user jobId jobDescription'
                  coverLetter' (snd first) in
  fst first = Succeeded (Some (generated_id env)) /\
  fst second = Failed (new_Error "You have already applied to this job!") /\
  db_applications (snd second) = db_applications (snd first) /\
  length (applications_of jobId u (db_applications (snd second))) = 1%nat.
Proof.
  intros Hu Hpath Hnone Hins Hpath' Hlookup'. cbv zeta.
  destruct (applyToJob_when_inserted env user u jobId jobDescription coverLetter w
              path Hu Hpath Hnone Hins) as (Hok & _).
  destruct (applyToJob_leaves_one env user u jobId jobDescription coverLetter w
              path Hu Hpath Hnone Hins) as (row & Hrow & _).
  cbv zeta in Hok, Hrow.
  rewrite (applyToJob_duplicate env' user u jobId jobDescription' coverLetter' _
             path' row Hu Hpath' Hlookup' Hrow).
  cbn [fst snd db_applications push_toast log_call].
  rewrite Hrow. repeat split. exact Hok.
Qed.

(** C2.  An applicant whose résumé lookup yields no usable file reference
    (no row, an empty reference, or a failed lookup) gets the
    [RESUME_REQUIRED] error and the résumé-required notification.  The
    lookup is the only call issued: the duplicate check is not reached, and
    nothing is written, whatever applications exist. *)
Theorem submission_requires_resume (env : Env) (user : option User) (u : string)
  (jobId jobDescription : string) (coverLetter : option string) (w : World)
  (Huser : user_id_of user = Some u)
  (Hmissing : usable_file_path (resume_lookup env u) = None) :
  let out := useApplications.applyToJob env user jobId jobDescription coverLetter w in
  fst out = Failed (new_Error "RESUME_REQUIRED") /\
  db_applications (snd out) = db_applications w /\
  calls (snd out) = calls w ++ [SelectLatestResume u] /\
  toasts (snd out) = toasts w ++ [ToastResumeRequired] /\
  invalidations (snd out) = invalidations w.
Proof.
  cbv zeta.
  rewrite (applyToJob_resume_required env user u jobId jobDescription coverLetter w
             Huser Hmissing).
  repeat split.
Qed.

(** C2, for Alice without a résumé row, although she has applied before. *)
Lemma submission_requires_resume_witness :
  let out := useApplications.applyToJob Sample.env_no_resume (Some Sample.alice)
               "job-1" "Senior Go Engineer" None Sample.applied_world in
  fst out = Failed (new_Error "RESUME_REQUIRED") /\
  db_applications (snd out) = db_applications Sample.applied_world /\
  calls (snd out) = calls Sample.applied_world ++ [SelectLatestResume "user-a"] /\
  toasts (snd out) = toasts Sample.applied_world ++ [ToastResumeRequired] /\
  invalidations (snd out) = invalidations Sample.applied_world.
Proof.
  apply (submission_requires_resume Sample.env_no_resume (Some Sample.alice) "user-a"
           "job-1" "Senior Go Engineer" None Sample.applied_world);
    reflexivity.
Defined.

(** C3 as stated does not hold for every pair that has an Application: the
    résumé check runs first, so Alice, who has applied to the job but has no
    résumé row any more, gets the résumé-required error and notification,
    not the already-applied one. *)
Lemma resume_check_precedes_duplicate_check :
  let out := useApplications.applyToJob Sample.env_no_resume (Some Sample.alice)
               "job-1" "Senior Go Engineer" None Sample.applied_world in
  applications_of "job-1" "user-a" (db_applications Sample.applied_world)
    = [Sample.applied_row] /\
  fst out = Failed (new_Error "RESUME_REQUIRED") /\
  toasts (snd out) = [ToastResumeRequired].
Proof.
  cbv zeta. repeat split.
Qed.

(** C3, amended.  For an applicant who passes the résumé check and has
    exactly one Application for this job, and with the duplicate lookup
    answered, the submission fails with the already-applied error and
    notification.  Only the two lookups are issued, the table is
    untouched, and the pair still has exactly one Application. *)
Theorem submission_rejects_duplicate (env : Env) (user : option User) (u : string)
  (jobId jobDescription : string) (coverLetter : option string) (w : World)
  (path : string)
  (Huser : user_id_of user = Some u)
  (Hresume : usable_file_path (resume_lookup env u) = Some path)
  (Hlookup : application_lookup_error env = None)
  (Hone : length (applications_of jobId u (db_applications w)) = 1%nat) :
  let out := useApplications.applyToJob env user jobId jobDescription coverLetter w in
  fst out = Failed (new_Error "You have already applied to this job!") /\
  db_applications (snd out) = db_applications w /\
  calls (snd out) = calls w ++ [SelectLatestResume u; SelectApplication jobId u] /\
  toasts (snd out) = toasts w ++ [ToastAlreadyApplied] /\
  invalidations (snd out) = invalidations w /\
  length (applications_of jobId u (db_applications (snd out))) = 1%nat.
Proof.
  cbv zeta.
  assert (Hrow : exists row, applications_of jobId u (db_applications w) = [row]).
  { destruct (applications_of jobId u (db_applications w)) as [| row [| row' rest]];
      [discriminate Hone | exists row; reflexivity | discriminate Hone]. }
  destruct Hrow as (row & Hrow).
  rewrite (applyToJob_duplicate env user u jobId jobDescription coverLetter w
             path row Huser Hresume Hlookup Hrow).
  cbn [fst snd db_applications calls toasts invalidations push_toast log_call].
  rewrite <- app_assoc. repeat split. exact Hone.
Qed.

(** C3, amended, for Alice applying a second time to the job she applied
    to. *)
Lemma submission_rejects_duplicate_witness :
  let out := useApplications.applyToJob Sample.env (Some Sample.alice)
               "job-1" "Senior Go Engineer" (Some "Hello") Sample.applied_world in
  fst out = Failed (new_Error "You have already applied to this job!") /\
  db_applications (snd out) = db_applications Sample.applied_world /\
  calls (snd out) =
    calls Sample.applied_world ++
    [SelectLatestResume "user-a"; SelectApplication "job-1" "user-a"] /\
  toasts (snd out) = toasts Sample.applied_world ++ [ToastAlreadyApplied] /\
  invalidations (snd out) = invalidations Sample.applied_world /\
  length (applications_of "job-1" "user-a" (db_applications (snd out))) = 1%nat.
Proof.
  apply (submission_rejects_duplicate Sample.env (Some Sample.alice) "user-a"
           "job-1" "Senior Go Engineer" (Some "Hello") Sample.applied_world
           "user-a/cv.pdf"); reflexivity.
Defined.

(** C1 as stated does not hold for an empty cover letter: Alice has a valid
    résumé and no Application for the job, she supplies the empty string,
    and the one Application created carries null, not the supplied text. *)
Lemma empty_cover_letter_is_stored_as_null :
  let supplied := Some "" in
  let out := useApplications.applyToJob Sample.env (Some Sample.alice)
               "job-1" "Senior Go Engineer" supplied Sample.empty_world in
  usable_file_path (resume_lookup Sample.env "user-a") = Some "user-a/cv.pdf" /\
  applications_of "job-1" "user-a" (db_applications Sample.empty_world) = [] /\
  fst out = Succeeded (Some "app-1") /\
  map cover_letter (applications_of "job-1" "user-a" (db_applications (snd out)))
    = [None] /\
  (None : option string) <> supplied.
Proof.
  cbv zeta. repeat split; try reflexivity. discriminate.
Qed.

(** C1, amended.  For an applicant with a usable résumé reference and no
    Application for the job, and when the backend accepts the insert, the
    submission inserts exactly one row: status [pending], scoring fields
    null, cover letter the supplied text when it is non-empty and null when
    none or the empty string is supplied.  It reports success with the new
    identity whatever the scoring sub-flow does; the table afterwards is the
    old one plus that row, with at most the scoring write-back applied, and
    the pair has exactly one Application, still [pending]. *)
Theorem submission_creates_pending_application (env : Env) (user : option User)
  (u : string) (jobId jobDescription : string) (coverLetter : option string)
  (w : World) (path : string)
  (Huser : user_id_of user = Some u)
  (Hresume : usable_file_path (resume_lookup env u) = Some path)
  (Hnone : applications_of jobId u (db_applications w) = [])
  (Hinsert : insert_error env = None) :
  let created :=
    new_row {| ins_job_id := jobId; ins_user_id := u; ins_status := pending;
               ins_cover_letter := or_null coverLetter |}
            (generated_id env) (server_now env) in
  let out := useApplications.applyToJob env user jobId jobDescription coverLetter w in
  fst out = Succeeded (Some (generated_id env)) /\
  (job_id created = jobId /\ user_id created = u /\ status created = pending /\
   unscored created) /\
  (forall text, coverLetter = Some text -> text <> "" ->
     cover_letter created = Some text) /\
  (coverLetter = None \/ coverLetter = Some "" -> cover_letter created = None) /\
  (db_applications (snd out) = db_applications w ++ [created] \/
   exists score category confidence now,
     db_applications (snd out) =
       update_where_id (generated_id env)
         (WriteScoring score category confidence now)
         (db_applications w ++ [created])) /\
  length (db_applications (snd out)) = S (length (db_applications w)) /\
  exists row,
    applications_of jobId u (db_applications (snd out)) = [row] /\
    id row = generated_id env /\ status row = pending /\
    cover_letter row = cover_letter created.
Proof.
  cbv zeta.
  destruct (applyToJob_when_inserted env user u jobId jobDescription coverLetter w
              path Huser Hresume Hnone Hinsert) as (Hok & Hdb & _ & _).
  cbv zeta in Hok, Hdb.
  set (payload := {| ins_job_id := jobId; ins_user_id := u; ins_status := pending;
                     ins_cover_letter := or_null coverLetter |}) in *.
  set (created := new_row payload (generated_id env) (server_now env)) in *.
  set (w1 := set_db _ _) in Hdb.
  assert (Hw1 : db_applications w1 = db_applications w ++ [created]) by reflexivity.
  assert (Hpair : applications_of jobId u (db_applications w ++ [created]) = [created]).
  { unfold applications_of in *. rewrite filter_app, Hnone. simpl.
    rewrite !String.eqb_refl. reflexivity. }
  split; [exact Hok |].
  split; [repeat split |].
  split.
  { intros text -> Hne. simpl. destruct text; [contradiction | reflexivity]. }
  split.
  { intros [-> | ->]; reflexivity. }
  rewrite Hdb.
  destruct (run_scoring_db (generated_id env) Applicant env jobDescription path w1)
    as (_ & [(_ & Hsame) | (r & wr & _ & Hreads & Hnew & _)]).
  - rewrite Hsame, Hw1.
    split; [left; reflexivity |].
    split; [rewrite length_app; simpl; lia |].
    exists created. rewrite Hpair. repeat split.
  - apply backend_reads_scoring in Hreads.
    destruct Hreads as (sc & cat & conf & ->).
    rewrite Hnew, Hw1.
    split; [right; exists sc, cat, conf, (clock env (ticks w1)); reflexivity |].
    split; [rewrite update_where_id_length, length_app; simpl; lia |].
    rewrite applications_of_update, Hpair. simpl.
    rewrite String.eqb_refl.
    eexists; split; [reflexivity |]. repeat split.
Qed.

(** C1, amended, for Alice applying with a cover letter while the scoring
    service works. *)
Lemma submission_creates_pending_application_witness :
  fst (useApplications.applyToJob Sample.env (Some Sample.alice) "job-1"
         "Senior Go Engineer" (Some "Hello") Sample.empty_world)
  = Succeeded (Some "app-1") /\
  length (db_applications
            (snd (useApplications.applyToJob Sample.env (Some Sample.alice) "job-1"
                    "Senior Go Engineer" (Some "Hello") Sample.empty_world)))
  = 1%nat.
Proof.
  destruct (submission_creates_pending_application Sample.env (Some Sample.alice)
              "user-a" "job-1" "Senior Go Engineer" (Some "Hello")
              Sample.empty_world "user-a/cv.pdf"
              eq_refl eq_refl eq_refl eq_refl)
    as (Hok & _ & _ & _ & _ & Hlen & _).
  split; [exact Hok | exact Hlen].
Defined.

(** C4.  When the submission has created the Application and the scoring
    sub-flow then fails, at the download, at the call to the scoring
    service, or at the write-back (the backend refuses the update, or
    cannot take a value of the answer), the submission still reports
    success with the new identity and raises the submitted notification;
    the table is the old one plus the created row, which is [pending] with
    null scoring fields. *)
Theorem scoring_failure_is_isolated (env : Env) (user : option User)
  (u : string) (jobId jobDescription : string) (coverLetter : option string)
  (w : World) (path : string)
  (Huser : user_id_of user = Some u)
  (Hresume : usable_file_path (resume_lookup env u) = Some path)
  (Hnone : applications_of jobId u (db_applications w) = [])
  (Hinsert : insert_error env = None)
  (Hfails :
     download_fails env path \/
     scoring_call_fails env (useApplications.ATS_API_URL ++ "/analyze-resume")
       [("job_description", FormText jobDescription);
        ("resume_file", file_field (data (storage_download env path)))] \/
     write_back_fails env \/
     value_refused env (useApplications.ATS_API_URL ++ "/analyze-resume")
       [("job_description", FormText jobDescription);
        ("resume_file", file_field (data (storage_download env path)))]) :
  let created :=
    new_row {| ins_job_id := jobId; ins_user_id := u; ins_status := pending;
               ins_cover_letter := or_null coverLetter |}
            (generated_id env) (server_now env) in
  let out := useApplications.applyToJob env user jobId jobDescription coverLetter w in
  fst out = Succeeded (Some (generated_id env)) /\
  (exists earlier, toasts (snd out) = earlier ++ [ToastSubmitted]) /\
  db_applications (snd out) = db_applications w ++ [created] /\
  applications_of jobId u (db_applications (snd out)) = [created] /\
  status created = pending /\ unscored created.
Proof.
  cbv zeta.
  destruct (applyToJob_when_inserted env user u jobId jobDescription coverLetter w
              path Huser Hresume Hnone Hinsert) as (Hok & Hdb & _ & Htoast).
  cbv zeta in Hok, Hdb, Htoast.
  split; [exact Hok |].
  split; [eexists; exact Htoast |].
  rewrite Hdb.
  destruct (run_scoring_failure Applicant env (generated_id env) jobDescription path
              (set_db (fun rows => rows ++
                 [new_row {| ins_job_id := jobId; ins_user_id := u;
                             ins_status := pending;
                             ins_cover_letter := or_null coverLetter |}
                          (generated_id env) (server_now env)])
                 (log_call (InsertApplication
                              {| ins_job_id := jobId; ins_user_id := u;
                                 ins_status := pending;
                                 ins_cover_letter := or_null coverLetter |})
                    (log_call (SelectApplication jobId u)
                       (log_call (SelectLatestResume u) w)))) Hfails)
    as (_ & Hsame).
  rewrite Hsame. cbn [db_applications set_db log_call].
  split; [reflexivity |].
  split; [| repeat split].
  unfold applications_of in *. rewrite filter_app, Hnone. simpl.
  rewrite !String.eqb_refl. reflexivity.
Qed.

(** C4, for Alice applying while the scoring service answers HTTP 500. *)
Lemma scoring_failure_is_isolated_witness :
  let out := useApplications.applyToJob Sample.env_scoring_down (Some Sample.alice)
               "job-1" "Senior Go Engineer" (Some "Hello") Sample.empty_world in
  fst out = Succeeded (Some "app-1") /\
  map status (db_applications (snd out)) = [pending] /\
  map ats_score (db_applications (snd out)) = [None].
Proof.
  cbv zeta.
  destruct (scoring_failure_is_isolated Sample.env_scoring_down (Some Sample.alice)
              "user-a" "job-1" "Senior Go Engineer" (Some "Hello")
              Sample.empty_world "user-a/cv.pdf"
              eq_refl eq_refl eq_refl eq_refl
              (or_intror (or_introl (or_introl eq_refl))))
    as (Hok & _ & Hdb & _).
  split; [exact Hok |].
  rewrite Hdb. split; reflexivity.
Defined.

(** C5 as stated does not hold: with the backend unreachable during the
    résumé lookup, the submission does not end in a generic failure, it ends
    in the résumé-required error and notification. *)
Lemma failed_resume_lookup_is_not_generic :
  let out := useApplications.applyToJob Sample.env_lookup_unreachable
               (Some Sample.alice) "job-1" "Senior Go Engineer" None
               Sample.empty_world in
  error (resume_lookup Sample.env_lookup_unreachable "user-a")
    = Some Sample.unreachable /\
  fst out = Failed (new_Error "RESUME_REQUIRED") /\
  toasts (snd out) = [ToastResumeRequired].
Proof.
  cbv zeta. repeat split.
Qed.

(** C5, amended.  When the résumé lookup fails, the submission fails with
    the [RESUME_REQUIRED] error and the résumé-required notification, the
    same outcome as for a missing résumé; the lookup is the only call
    issued and no Application is created. *)
Theorem failed_resume_lookup_is_resume_required (env : Env) (user : option User)
  (u : string) (jobId jobDescription : string) (coverLetter : option string)
  (w : World)
  (Huser : user_id_of user = Some u)
  (Hfails : error (resume_lookup env u) <> None) :
  let out := useApplications.applyToJob env user jobId jobDescription coverLetter w in
  fst out = Failed (new_Error "RESUME_REQUIRED") /\
  toasts (snd out) = toasts w ++ [ToastResumeRequired] /\
  calls (snd out) = calls w ++ [SelectLatestResume u] /\
  db_applications (snd out) = db_applications w.
Proof.
  cbv zeta.
  assert (Hmissing : usable_file_path (resume_lookup env u) = None)
    by (apply usable_file_path_none_iff; left; exact Hfails).
  rewrite (applyToJob_resume_required env user u jobId jobDescription coverLetter w
             Huser Hmissing).
  repeat split.
Qed.

(** C5, amended, with the backend unreachable for Alice's résumé lookup. *)
Lemma failed_resume_lookup_is_resume_required_witness :
  let out := useApplications.applyToJob Sample.env_lookup_unreachable
               (Some Sample.alice) "job-1" "Senior Go Engineer" None
               Sample.applied_world in
  fst out = Failed (new_Error "RESUME_REQUIRED") /\
  toasts (snd out) = toasts Sample.applied_world ++ [ToastResumeRequired] /\
  calls (snd out) = calls Sample.applied_world ++ [SelectLatestResume "user-a"] /\
  db_applications (snd out) = db_applications Sample.applied_world.
Proof.
  apply (failed_resume_lookup_is_resume_required Sample.env_lookup_unreachable
           (Some Sample.alice) "user-a" "job-1" "Senior Go Engineer" None
           Sample.applied_world); [reflexivity | discriminate].
Defined.

(** The error of the duplicate-application lookup is never read: when that
    lookup fails the submission goes on to the insert, here for a pair that
    already has an Application. *)
Example failed_duplicate_lookup_is_ignored :
  let out := useApplications.applyToJob Sample.env_duplicate_lookup_unreachable
               (Some Sample.alice) "job-1" "Senior Go Engineer" None
               Sample.applied_world in
  fst out = Succeeded (Some "app-1") /\
  length (applications_of "job-1" "user-a" (db_applications (snd out))) = 2%nat.
Proof.
  cbv zeta. split; reflexivity.
Qed.

(** The failure of the insert itself propagates as it is, and nothing is
    added to the table. *)
Lemma failed_insert_propagates (env : Env) (user : option User) (u : string)
  (jobId jobDescription : string) (coverLetter : option string) (w : World)
  (path : string) (e : JsError) :
  user_id_of user = Some u ->
  usable_file_path (resume_lookup env u) = Some path ->
  applications_of jobId u (db_applications w) = [] ->
  insert_error env = Some e ->
  let out := useApplications.applyToJob env user jobId jobDescription coverLetter w in
  fst out = Failed e /\ db_applications (snd out) = db_applications w.
Proof.
  intros Hu Hpath Hnone Hins. cbv zeta.
  unfold useApplications.applyToJob, useApplications.mutationFn.
  rewrite Hu.
  cbv beta iota delta [bind select_latest_resume].
  rewrite Hpath.
  cbv beta iota zeta delta [bind select_application insert_application].
  change (db_applications (log_call (SelectLatestResume u) w))
    with (db_applications w).
  rewrite Hnone, Hins.
  destruct (application_lookup_error env) as [le |];
    cbn -[useApplications.onError];
    (split; [reflexivity |]);
    match goal with
    | |- db_applications (useApplications.onError ?e ?w0) = _ =>
        destruct (onError_frame e w0) as (Hdb & _); rewrite Hdb; reflexivity
    end.
Qed.
(** ** Further properties: fetching the reviewer's list *)

Lemma fetchApplications_failed (rpc : Response (list ApplicationWithDetails))
  (u : User) (s : ReviewerState) (err : JsError) :
  error rpc = Some err ->
  let s' := fetchApplications rpc (Some u) s in
  applications (world s') = applications (world s) /\
  hook_error s' = Some (error_text err) /\
  loading (world s') = false /\
  console (world s') = console (world s) ++ ["Error fetching applications:"] /\
  rpc_calls s' = S (rpc_calls s).
Proof.
  intros Herr. unfold fetchApplications. rewrite Herr. simpl. repeat split.
Qed.

Lemma fetchApplications_succeeded (rpc : Response (list ApplicationWithDetails))
  (u : User) (s : ReviewerState) :
  error rpc = None ->
  let s' := fetchApplications rpc (Some u) s in
  applications (world s') = match data rpc with Some rows => rows | None => [] end /\
  hook_error s' = None /\
  loading (world s') = false /\
  console (world s') = console (world s) /\
  rpc_calls s' = S (rpc_calls s).
Proof.
  intros Herr. unfold fetchApplications. rewrite Herr. simpl. repeat split.
Qed.

(** A run of failed fetches keeps the list that was shown. *)
Lemma failed_fetches_keep_list (u : User)
  (rs : list (Response (list ApplicationWithDetails))) :
  Forall (fun r => error r <> None) rs ->
  forall s,
    applications
      (world (fold_left (fun st r => fetchApplications r (Some u) st) rs s)) =
    applications (world s).
Proof.
  induction 1 as [| r rs Hr _ IH]; intro s; cbn [fold_left]; [reflexivity |].
  rewrite IH.
  destruct (error r) as [err |] eqn:Herr; [| contradiction Hr; reflexivity].
  destruct (fetchApplications_failed r u s err Herr) as (Hkeep & _).
  exact Hkeep.
Qed.

Lemma fetches_count (u : User)
  (rs : list (Response (list ApplicationWithDetails))) (s : ReviewerState) :
  rpc_calls (fold_left (fun st r => fetchApplications r (Some u) st) rs s) =
  (rpc_calls s + length rs)%nat.
Proof.
  revert s. induction rs as [| r rs IH]; intro s; cbn [fold_left length]; [lia |].
  rewrite IH.
  destruct (error r) as [err |] eqn:Herr.
  - destruct (fetchApplications_failed r u s err Herr) as (_ & _ & _ & _ & ->). lia.
  - destruct (fetchApplications_succeeded r u s Herr) as (_ & _ & _ & _ & ->). lia.
Qed.

(** X1.  For a signed-in reviewer, after any series of fetches the remote
    procedure was called once per fetch; the list shown is the one of the
    last fetch that succeeded (the empty list when that answer carried no
    data), and the list from before when every fetch failed; the error shown
    is the text of the last fetch's error, null when the last fetch
    succeeded; and [loading] is off. *)
Theorem refetch_shows_last_success (u : User)
  (rs : list (Response (list ApplicationWithDetails))) (s : ReviewerState) :
  let s' := fold_left (fun st r => fetchApplications r (Some u) st) rs s in
  rpc_calls s' = (rpc_calls s + length rs)%nat /\
  (Forall (fun r => error r <> None) rs ->
     applications (world s') = applications (world s)) /\
  (forall pre r post,
     rs = pre ++ r :: post -> error r = None ->
     Forall (fun r' => error r' <> None) post ->
     applications (world s') = match data r with Some rows => rows | None => [] end) /\
  (forall pre r,
     rs = pre ++ [r] ->
     hook_error s' = option_map error_text (error r) /\
     loading (world s') = false).
Proof.
  cbv zeta.
  split; [apply fetches_count |].
  split; [intro Hall; now apply failed_fetches_keep_list |].
  split.
  - intros pre r post -> Hok Hpost.
    rewrite fold_left_app. cbn [fold_left].
    rewrite (failed_fetches_keep_list u post Hpost).
    destruct (fetchApplications_succeeded r u
                (fold_left (fun st r0 => fetchApplications r0 (Some u) st) pre s)
                Hok) as (Hnew & _).
    exact Hnew.
  - intros pre r ->.
    rewrite fold_left_app. cbn [fold_left].
    destruct (error r) as [err |] eqn:Herr.
    + destruct (fetchApplications_failed r u
                  (fold_left (fun st r0 => fetchApplications r0 (Some u) st) pre s)
                  err Herr) as (_ & He & Hl & _).
      split; [exact He | exact Hl].
    + destruct (fetchApplications_succeeded r u
                  (fold_left (fun st r0 => fetchApplications r0 (Some u) st) pre s)
                  Herr) as (_ & He & Hl & _).
      split; [exact He | exact Hl].
Qed.

(** X1, on mount followed by a refetch while the backend is down: the two
    rows of the first fetch are still shown. *)
Lemma refetch_shows_last_success_witness :
  applications
    (world (fold_left (fun st r => fetchApplications r (Some Sample.alice) st)
              [Scenario.rpc_rows; Scenario.rpc_down]
              (initial_state [Sample.applied_row])))
  = [Sample.cached; Scenario.other_cached].
Proof.
  destruct (refetch_shows_last_success Sample.alice
              [Scenario.rpc_rows; Scenario.rpc_down]
              (initial_state [Sample.applied_row])) as (_ & _ & Hlast & _).
  apply (Hlast [] Scenario.rpc_rows [Scenario.rpc_down] eq_refl eq_refl).
  repeat constructor. discriminate.
Defined.

(** X2.  Without a user no fetch does anything: the remote procedure is
    never called, and a hook that starts in its initial state, where
    [loading] is on, keeps [loading] on however often it refetches. *)
Theorem signed_out_fetch_never_settles
  (rs : list (Response (list ApplicationWithDetails))) (s : ReviewerState)
  (rows : list ApplicationRow) :
  fold_left (fun st r => fetchApplications r None st) rs s = s /\
  loading (world (fold_left (fun st r => fetchApplications r None st) rs
                    (initial_state rows))) = true /\
  rpc_calls (fold_left (fun st r => fetchApplications r None st) rs
               (initial_state rows)) = 0%nat.
Proof.
  assert (Hfix : forall st,
            fold_left (fun st0 r => fetchApplications r None st0) rs st = st).
  { induction rs as [| r rs IH]; intro st; cbn [fold_left]; [reflexivity | apply IH]. }
  rewrite !Hfix. repeat split.
Qed.

(** ** Further properties: what a scoring run reports and shows *)





(** Closes the cases of a property stated answer by answer. *)
Ltac settle :=
  cbn [fst snd]; repeat split; intros;
  repeat match goal with
  | H : Some _ = None |- _ => discriminate H
  | H : None = Some _ |- _ => discriminate H
  | H : true = false |- _ => discriminate H
  | H : false = true |- _ => discriminate H
  | H : NetworkFailure _ = HttpResponse _ _ |- _ => discriminate H
  | H : HttpResponse _ _ = NetworkFailure _ |- _ => discriminate H
  | H : Return _ = Throw _ |- _ => discriminate H
  | H : Throw _ = Return _ |- _ => discriminate H
  | H : ?x <> ?x |- _ => contradiction H; reflexivity
  | H : HttpResponse _ _ = HttpResponse _ _ |- _ => injection H as ? ?; subst
  | H : NetworkFailure _ = NetworkFailure _ |- _ => injection H as ?; subst
  | H : Some _ = Some _ |- _ => injection H as ?; subst
  | H : Return _ = Return _ |- _ => injection H as ?; subst
  | H : Throw _ = Throw _ |- _ => injection H as ?; subst
  end;
  try reflexivity; try congruence; try discriminate.

(** X3.  The reviewer's [calculateAtsScore] never throws and always leaves
    [loading] off.  It resolves to [success: true] with the service's answer
    exactly when the write-back is accepted, and then the table is the old
    one with the accepted write applied.  Otherwise it resolves to
    [success: false] with a text: the storage's error text when the download
    fails, the network error's text when the request fails, the fixed text
    "Failed to calculate ATS score" for every status outside 200-299
    (whatever the status), the engine's text for a body that is not JSON,
    the engine's text for reading a property of null when the body is null,
    the backend's error text when the write is refused, also when it is
    refused for a value of the answer that the column cannot hold; then the
    cached list and the table are as before and one line is written to the
    console. *)
Theorem calculateAtsScore_reports (env : Env)
  (applicationId jobDescription resumeFilePath : string) (w : World) :
  let file := storage_download env resumeFilePath in
  let url := (useHRApplications.ATS_API_URL ++ "/analyze-resume")%string in
  let body := [("job_description", FormText jobDescription);
               ("resume_file", file_field (data file))] in
  let now := clock env (ticks w) in
  let out := useHRApplications.calculateAtsScore env applicationId jobDescription
               resumeFilePath w in
  let failure := fun text => Return (mkHookResult false None (Some text)) in
  loading (snd out) = false /\
  (exists res, fst out = Return res) /\
  (forall e, error file = Some e -> fst out = failure (error_text e)) /\
  (error file = None ->
     (forall e, http_post env url body = NetworkFailure e ->
        fst out = failure (error_text e)) /\
     (forall code js, http_post env url body = HttpResponse code js ->
        ok code = false -> fst out = failure "Failed to calculate ATS score") /\
     (forall code, http_post env url body = HttpResponse code None ->
        ok code = true -> fst out = failure (engine_message env InvalidJson)) /\
     (forall code, http_post env url body = HttpResponse code (Some JNull) ->
        ok code = true ->
        fst out = failure (engine_message env (PropertyOfNull "ats_score"))) /\
     (forall code result,
        http_post env url body = HttpResponse code (Some result) ->
        ok code = true -> result <> JNull ->
        let patch := PatchScoring (property result "ats_score")
                                  (property result "predicted_category")
                                  (property result "confidence") now in
        (forall e, update_error env = Some e -> fst out = failure (error_text e)) /\
        (update_error env = None -> backend_reads env patch = None ->
           fst out = failure (error_text (cast_error env))) /\
        (update_error env = None ->
         forall wr, backend_reads env patch = Some wr ->
           fst out = Return (mkHookResult true (Some result) None) /\
           db_applications (snd out) =
             update_where_id applicationId wr (db_applications w)))) /\
  (forall res, fst out = Return res -> success res = false ->
     applications (snd out) = applications w /\
     db_applications (snd out) = db_applications w /\
     console (snd out) = console w ++ ["Error calculating ATS score:"]).
Proof.
  cbv zeta.
  rewrite (calculateAtsScore_outcome env applicationId jobDescription
             resumeFilePath w).
  cbv zeta. unfold scoring_form, scoring_patch.
  destruct (error (storage_download env resumeFilePath)) as [e |];
    [settle; eexists; reflexivity |].
  destruct (http_post env _ _) as [e | code js]; [settle; eexists; reflexivity |].
  destruct (ok code) eqn:Hok; [| settle; eexists; reflexivity].
  destruct js as [result |]; [| settle; eexists; reflexivity].
  destruct (is_null result) eqn:Hnull.
  { destruct result; try discriminate Hnull. settle. eexists; reflexivity. }
  destruct (update_error env) as [ue |]; [settle; eexists; reflexivity |].
  destruct (backend_reads env _) as [wr |] eqn:Hreads.
  - cbn [fst snd loading set_loading db_applications].
    rewrite rescored_db.
    split; [reflexivity |]. split; [eexists; reflexivity |].
    split; [intros e H; discriminate H |].
    split; [| intros res H Hs; injection H as <-; discriminate Hs].
    intros _.
    split; [intros e H; discriminate H |].
    split; [intros c j H Hno; injection H as -> _; congruence |].
    split; [intros c H; discriminate H |].
    split; [intros c H; injection H as _ ->; discriminate Hnull |].
    intros c r H _ _. injection H as _ ->.
    split; [intros e H; discriminate H |].
    split; [intros _ H; congruence |].
    intros _ wr' H. rewrite Hreads in H. injection H as <-.
    split; reflexivity.
  - cbn [fst snd loading set_loading db_applications].
    split; [reflexivity |]. split; [eexists; reflexivity |].
    split; [intros e H; discriminate H |].
    split; [| intros res _ _; repeat split].
    intros _.
    split; [intros e H; discriminate H |].
    split; [intros c j H Hno; injection H as -> _; congruence |].
    split; [intros c H; discriminate H |].
    split; [intros c H; injection H as _ ->; discriminate Hnull |].
    intros c r H _ _. injection H as _ ->.
    split; [intros e H; discriminate H |].
    split; [reflexivity |].
    intros _ wr' H. congruence.
Qed.

(** X3, for a re-score that the service answers with 200 and a body that
    is not JSON: the run fails with the engine's text. *)
Lemma calculateAtsScore_reports_witness :
  fst (useHRApplications.calculateAtsScore Scenario.env_unreadable_answer "app-0"
         "Senior Go Engineer" "user-a/cv.pdf" Sample.reviewer_world)
  = Return (mkHookResult false None (Some "Unexpected end of JSON input")).
Proof.
  destruct (calculateAtsScore_reports Scenario.env_unreadable_answer "app-0"
              "Senior Go Engineer" "user-a/cv.pdf" Sample.reviewer_world)
    as (_ & _ & _ & Hpost & _).
  destruct (Hpost eq_refl) as (_ & _ & Hbody & _).
  exact (Hbody 200%Z eq_refl eq_refl).
Defined.



(** On an answer outside the documented shape the cache and the table
    part: the service answers 200 with an empty object, the run succeeds,
    the row keeps its score of 60, and the cached entry shows
    [undefined]. *)
Example empty_answer_parts_cache_and_table :
  let out := useHRApplications.calculateAtsScore Scenario.env_empty_answer "app-0"
               "Senior Go Engineer" "user-a/cv.pdf" Sample.reviewer_world in
  fst out = Return (mkHookResult true (Some (JObject [])) None) /\
  map ats_score (db_applications (snd out)) = [Some (60 # 1)] /\
  map d_ats_score (applications (snd out)) = [None].
Proof. vm_compute. repeat split. Qed.

(** X5.  The applicant's [calculateAndSaveAtsScore] announces a score only
    when it was saved: when it returns, the backend has accepted the write,
    one notification carries the score and category of the answer and the
    query cache is invalidated once.  When it throws it has raised nothing
    and written one console line.  It throws on what it caught, with the
    table as it was: the storage's error, the network error, an [Error]
    with the fixed message for a status outside 200-299, the engine's error
    for a body that is not JSON or is null, the backend's error of the
    refused write.  Once the write is accepted the row is updated; the
    function then returns the answer when the score is a number and the
    category can be put into the text, and otherwise throws the engine's
    type error with the write in place. *)
Theorem calculateAndSaveAtsScore_announces_saved_scores (env : Env)
  (applicationId jobDescription resumeFilePath : string) (w : World) :
  let file := storage_download env resumeFilePath in
  let url := (useApplications.ATS_API_URL ++ "/analyze-resume")%string in
  let body := [("job_description", FormText jobDescription);
               ("resume_file", file_field (data file))] in
  let now := clock env (ticks w) in
  let out := useApplications.calculateAndSaveAtsScore env applicationId
               jobDescription resumeFilePath w in
  (forall result, fst out = Return result ->
     exists q wr,
       number_of (property result "ats_score") = Some q /\
       template_ok (property result "predicted_category") = true /\
       toasts (snd out) =
         toasts w ++ [ToastAtsScore q (property result "predicted_category")] /\
       invalidations (snd out) = S (invalidations w) /\
       console (snd out) = console w /\
       backend_reads env (scoring_patch result now) = Some wr /\
       db_applications (snd out) =
         update_where_id applicationId wr (db_applications w)) /\
  (forall e, fst out = Throw e ->
     toasts (snd out) = toasts w /\
     invalidations (snd out) = invalidations w /\
     console (snd out) = console w ++ ["Error in calculateAndSaveAtsScore:"]) /\
  (forall e, error file = Some e ->
     fst out = Throw e /\ db_applications (snd out) = db_applications w) /\
  (error file = None ->
     (forall e, http_post env url body = NetworkFailure e ->
        fst out = Throw e /\ db_applications (snd out) = db_applications w) /\
     (forall code js, http_post env url body = HttpResponse code js ->
        ok code = false ->
        fst out = Throw (new_Error "Failed to calculate ATS score") /\
        db_applications (snd out) = db_applications w) /\
     (forall code, http_post env url body = HttpResponse code None ->
        ok code = true ->
        fst out = Throw (ErrorInstance (engine_message env InvalidJson)) /\
        db_applications (snd out) = db_applications w) /\
     (forall code, http_post env url body = HttpResponse code (Some JNull) ->
        ok code = true ->
        fst out = Throw (TypeError (engine_message env (PropertyOfNull "ats_score"))) /\
        db_applications (snd out) = db_applications w) /\
     (forall code result,
        http_post env url body = HttpResponse code (Some result) ->
        ok code = true -> result <> JNull ->
        let patch := PatchScoring (property result "ats_score")
                                  (property result "predicted_category")
                                  (property result "confidence") now in
        (forall e, update_error env = Some e ->
           fst out = Throw e /\ db_applications (snd out) = db_applications w) /\
        (update_error env = None -> backend_reads env patch = None ->
           fst out = Throw (cast_error env) /\
           db_applications (snd out) = db_applications w) /\
        (update_error env = None ->
         forall wr, backend_reads env patch = Some wr ->
           db_applications (snd out) =
             update_where_id applicationId wr (db_applications w) /\
           (announceable result = true -> fst out = Return result) /\
           (number_of (property result "ats_score") = None ->
              fst out = Throw (TypeError (engine_message env
                                 (toFixed_fault (property result "ats_score"))))) /\
           (number_of (property result "ats_score") <> None ->
            template_ok (property result "predicted_category") = false ->
              fst out = Throw (TypeError (engine_message env NotAPrimitive)))))).
Proof.
  cbv zeta.
  rewrite (calculateAndSaveAtsScore_outcome env applicationId jobDescription
             resumeFilePath w).
  cbv zeta. unfold scoring_form, scoring_patch, announceable.
  destruct (error (storage_download env resumeFilePath)) as [e |]; [settle |].
  destruct (http_post env _ _) as [e | code js]; [settle |].
  destruct (ok code) eqn:Hok; [| settle].
  destruct js as [result |]; [| settle].
  destruct (is_null result) eqn:Hnull.
  { destruct result; try discriminate Hnull. settle. }
  destruct (update_error env) as [ue |]; [settle |].
  destruct (backend_reads env _) as [wr |] eqn:Hreads.
  2:{ split; [intros r H; discriminate H |].
      split; [intros e _; repeat split |].
      split; [intros e H; discriminate H |].
      intros _.
      split; [intros e H; discriminate H |].
      split; [intros c j H Hno; injection H as -> _; congruence |].
      split; [intros c H; discriminate H |].
      split; [intros c H; injection H as _ ->; discriminate Hnull |].
      intros c r H _ _. injection H as _ ->.
      split; [intros e H; discriminate H |].
      split; [intros _ _; split; reflexivity |].
      intros _ wr H. congruence. }
  destruct (number_of (property result "ats_score")) as [q |] eqn:Hq;
    [destruct (template_ok (property result "predicted_category")) eqn:Ht |].
  - split.
    { intros r H. injection H as <-. exists q, wr. rewrite Hq, Ht.
      repeat split. exact Hreads. }
    split; [intros e H; discriminate H |].
    split; [intros e H; discriminate H |].
    intros _.
    split; [intros e H; discriminate H |].
    split; [intros c j H Hno; injection H as -> _; congruence |].
    split; [intros c H; discriminate H |].
    split; [intros c H; injection H as _ ->; discriminate Hnull |].
    intros c r H _ _. injection H as _ ->.
    split; [intros e H; discriminate H |].
    split; [intros _ H; congruence |].
    intros _ wr0 H. rewrite Hreads in H. injection H as <-.
    rewrite Hq, Ht. cbn [fst snd]. repeat split; intros; congruence.
  - split; [intros r H; discriminate H |].
    split; [intros e _; repeat split |].
    split; [intros e H; discriminate H |].
    intros _.
    split; [intros e H; discriminate H |].
    split; [intros c j H Hno; injection H as -> _; congruence |].
    split; [intros c H; discriminate H |].
    split; [intros c H; injection H as _ ->; discriminate Hnull |].
    intros c r H _ _. injection H as _ ->.
    split; [intros e H; discriminate H |].
    split; [intros _ H; congruence |].
    intros _ wr0 H. rewrite Hreads in H. injection H as <-.
    rewrite Hq, Ht. cbn [fst snd]. repeat split; intros; congruence.
  - split; [intros r H; discriminate H |].
    split; [intros e _; repeat split |].
    split; [intros e H; discriminate H |].
    intros _.
    split; [intros e H; discriminate H |].
    split; [intros c j H Hno; injection H as -> _; congruence |].
    split; [intros c H; discriminate H |].
    split; [intros c H; injection H as _ ->; discriminate Hnull |].
    intros c r H _ _. injection H as _ ->.
    split; [intros e H; discriminate H |].
    split; [intros _ H; congruence |].
    intros _ wr0 H. rewrite Hreads in H. injection H as <-.
    rewrite Hq. cbn [fst snd]. repeat split; intros; congruence.
Qed.

(** X5, for a score computed for Alice's application. *)
Lemma calculateAndSaveAtsScore_announces_saved_scores_witness :
  toasts (snd (useApplications.calculateAndSaveAtsScore Sample.env "app-0"
                 "Senior Go Engineer" "user-a/cv.pdf" Sample.applied_world))
  = [ToastAtsScore (175 # 2) (Some (JString "Software Engineering"))].
Proof.
  destruct (calculateAndSaveAtsScore_announces_saved_scores Sample.env "app-0"
              "Senior Go Engineer" "user-a/cv.pdf" Sample.applied_world)
    as (Hok & _).
  destruct (Hok Sample.result eq_refl) as (q & wr & Hq & _ & Ht & _).
  cbn in Hq. injection Hq as <-. exact Ht.
Defined.

(** X6.  When the two deployments answer alike, the two call sites agree
    on every outcome but one.  Whatever the applicant's function returns,
    the reviewer's function reports as [success: true] with that answer.
    Whatever the reviewer's function reports as a failure is the text of
    the error the applicant's function throws.  When the reviewer's
    function reports success with an answer whose score is a number and
    whose category can be put into a text, the applicant's function returns
    that answer; with any other answer the applicant's function throws the
    engine's type error of the announcement although the write was made,
    and this is the only case in which it throws while the reviewer's
    function reports success. *)
Theorem call_sites_report_the_same_outcome (env : Env)
  (applicationId jobDescription resumeFilePath : string) (w : World)
  (Hsame : forall body,
     http_post env (useHRApplications.ATS_API_URL ++ "/analyze-resume") body =
     http_post env (useApplications.ATS_API_URL ++ "/analyze-resume") body) :
  let hr := useHRApplications.calculateAtsScore env applicationId jobDescription
              resumeFilePath w in
  let js := useApplications.calculateAndSaveAtsScore env applicationId
              jobDescription resumeFilePath w in
  let reported := fun result => Return (mkHookResult true (Some result) None) in
  let failure := fun text => Return (mkHookResult false None (Some text)) in
  (forall result, fst js = Return result -> fst hr = reported result) /\
  (forall text, fst hr = failure text ->
     exists e, fst js = Throw e /\ text = error_text e) /\
  (forall result, fst hr = reported result -> announceable result = true ->
     fst js = Return result) /\
  (forall result, fst hr = reported result -> announceable result = false ->
     db_applications (snd js) = db_applications (snd hr) /\
     (number_of (property result "ats_score") = None ->
        fst js = Throw (TypeError (engine_message env
                          (toFixed_fault (property result "ats_score"))))) /\
     (number_of (property result "ats_score") <> None ->
        fst js = Throw (TypeError (engine_message env NotAPrimitive)))) /\
  (forall e, fst js = Throw e ->
     fst hr = failure (error_text e) \/
     exists result, fst hr = reported result /\ announceable result = false).
Proof.
  cbv zeta.
  rewrite (calculateAtsScore_outcome env applicationId jobDescription
             resumeFilePath w).
  rewrite (calculateAndSaveAtsScore_outcome env applicationId jobDescription
             resumeFilePath w).
  cbv zeta. rewrite Hsame. unfold announceable.
  destruct (error (storage_download env resumeFilePath)) as [e |];
    [settle; eauto |].
  destruct (http_post env _ _) as [e | code js]; [settle; eauto |].
  destruct (ok code); [| settle; eauto].
  destruct js as [result |]; [| settle; eauto].
  destruct (is_null result); [settle; eauto |].
  destruct (update_error env) as [ue |]; [settle; eauto |].
  destruct (backend_reads env _) as [wr |]; [| settle; eauto].
  cbn [fst snd db_applications set_loading]. rewrite rescored_db.
  destruct (number_of (property result "ats_score")) as [q |] eqn:Hq;
    [destruct (template_ok (property result "predicted_category")) eqn:Ht |].
  - cbn [fst snd]. split; [intros r H; injection H as <-; reflexivity |].
    split; [intros text H; discriminate H |].
    split; [intros r H _; injection H as <-; reflexivity |].
    split; [intros r H; injection H as <-; rewrite Hq, Ht; discriminate |].
    intros e H. discriminate H.
  - cbn [fst snd]. split; [intros r H; discriminate H |].
    split; [intros text H; discriminate H |].
    split; [intros r H; injection H as <-; rewrite Hq, Ht; discriminate |].
    split.
    { intros r H _. injection H as <-. rewrite Hq.
      split; [reflexivity |]. split; [discriminate | reflexivity]. }
    intros e _. right. exists result. rewrite Hq, Ht. auto.
  - cbn [fst snd]. split; [intros r H; discriminate H |].
    split; [intros text H; discriminate H |].
    split; [intros r H; injection H as <-; rewrite Hq; discriminate |].
    split.
    { intros r H _. injection H as <-. rewrite Hq.
      split; [reflexivity |]. split; [reflexivity |].
      intro H; contradiction H; reflexivity. }
    intros e _. right. exists result. rewrite Hq. auto.
Qed.

(** X6, with a scoring service that answers 200 with an empty object at
    both addresses: the reviewer's function reports success, the
    applicant's function throws, and both have written. *)
Lemma call_sites_report_the_same_outcome_witness :
  let hr := useHRApplications.calculateAtsScore Scenario.env_empty_answer "app-0"
              "Senior Go Engineer" "user-a/cv.pdf" Sample.applied_world in
  let js := useApplications.calculateAndSaveAtsScore Scenario.env_empty_answer
              "app-0" "Senior Go Engineer" "user-a/cv.pdf" Sample.applied_world in
  fst hr = Return (mkHookResult true (Some (JObject [])) None) /\
  fst js = Throw (TypeError "Cannot read properties of undefined (reading 'toFixed')") /\
  db_applications (snd js) = db_applications (snd hr).
Proof.
  cbv zeta.
  destruct (call_sites_report_the_same_outcome Scenario.env_empty_answer "app-0"
              "Senior Go Engineer" "user-a/cv.pdf" Sample.applied_world
              (fun _ => eq_refl)) as (_ & _ & _ & Hparts & _).
  destruct (Hparts (JObject []) eq_refl eq_refl) as (Hdb & Hthrown & _).
  split; [reflexivity |].
  split; [exact (Hthrown eq_refl) | exact Hdb].
Defined.

(** ** Further properties: the reviewer's other actions *)

(** X7.  [getResumeDownloadUrl] never throws.  It resolves to a URL exactly
    when the file reference is non-empty and the storage answers with a
    signed URL and no error; when the storage refuses or answers with
    nothing it resolves to null and writes one console line.  It never
    touches the table or the cached list. *)
Theorem getResumeDownloadUrl_result (env : Env) (filePath : string) (w : World) :
  let out := useHRApplications.getResumeDownloadUrl env filePath w in
  let signed := storage_sign env filePath 3600 in
  (exists answer, fst out = Return answer) /\
  (forall url,
     fst out = Return (Some url) <->
     filePath <> "" /\ error signed = None /\ data signed = Some url) /\
  (filePath <> "" -> error signed <> None \/ data signed = None ->
     fst out = Return None /\
     console (snd out) = console w ++ ["Error getting resume download URL:"]) /\
  db_applications (snd out) = db_applications w /\
  applications (snd out) = applications w.
Proof.
  cbv zeta.
  unfold useHRApplications.getResumeDownloadUrl.
  destruct filePath as [| c rest].
  - cbn. split; [eexists; reflexivity |].
    split.
    + intro url. split; [intro H; discriminate H |].
      intros (Hne & _). contradiction Hne. reflexivity.
    + split; [intro Hne; contradiction Hne; reflexivity | split; reflexivity].
  - unfold try_catch, bind, createSignedUrl, effect. cbn [truthy negb fst snd].
    destruct (error (storage_sign env (String c rest) 3600)) as [e |].
    + cbn. split; [eexists; reflexivity |].
      split.
      * intro url. split; [intro H; discriminate H |].
        intros (_ & H & _). discriminate H.
      * repeat split.
    + destruct (data (storage_sign env (String c rest) 3600)) as [u |].
      * cbn. split; [eexists; reflexivity |].
        split.
        -- intro url. split.
           ++ intro H. injection H as <-. repeat split. discriminate.
           ++ intros (_ & _ & H). injection H as <-. reflexivity.
        -- split; [| split; reflexivity].
           intros _ [H | H]; [contradiction H; reflexivity | discriminate H].
      * cbn. split; [eexists; reflexivity |].
        split.
        -- intro url. split; [intro H; discriminate H |].
           intros (_ & _ & H). discriminate H.
        -- repeat split.
Qed.

(** X7, with a storage that cannot sign. *)
Lemma getResumeDownloadUrl_result_witness :
  fst (useHRApplications.getResumeDownloadUrl Scenario.env_sign_refused
         "user-a/cv.pdf" Sample.reviewer_world) = Return None /\
  console (snd (useHRApplications.getResumeDownloadUrl Scenario.env_sign_refused
                  "user-a/cv.pdf" Sample.reviewer_world))
  = console Sample.reviewer_world ++ ["Error getting resume download URL:"].
Proof.
  destruct (getResumeDownloadUrl_result Scenario.env_sign_refused "user-a/cv.pdf"
              Sample.reviewer_world) as (_ & _ & Hnull & _).
  apply Hnull; [discriminate | left; discriminate].
Defined.

(** [updateApplicationStatus], answer by answer, with the world it leaves. *)
Lemma updateApplicationStatus_outcome (env : Env) (applicationId : string)
  (newStatus : Status) (w : World) :
  let w1 := log_call (UpdateApplication applicationId (PatchStatus newStatus)) w in
  useHRApplications.updateApplicationStatus env applicationId newStatus w =
  match update_error env with
  | Some e =>
      (Return (mkHookResult false None (Some (error_text e))),
       log_console "Error updating application status:" w1)
  | None =>
      (Return (mkHookResult true None None),
       set_applications
         (map (fun app => if String.eqb (application_id app) applicationId
                          then with_status newStatus app else app))
         (set_db (update_where_id applicationId (WriteStatus newStatus)) w1))
  end.
Proof.
  cbv zeta.
  unfold useHRApplications.updateApplicationStatus, try_catch, bind,
    update_application, effect.
  destruct (update_error env); reflexivity.
Qed.

(** X8.  An accepted [updateApplicationStatus] issues the one update call
    and rewrites the table row by row: a row with that id gets the new
    status and keeps its identity, job, applicant, submission time, cover
    letter and all four scoring fields; every other row is untouched.  A
    reviewer's decision therefore never erases or alters a score. *)
Theorem updateApplicationStatus_keeps_scores (env : Env) (applicationId : string)
  (newStatus : Status) (w : World)
  (Hok : update_error env = None) :
  let out := useHRApplications.updateApplicationStatus env applicationId newStatus w in
  calls (snd out) =
    calls w ++ [UpdateApplication applicationId (PatchStatus newStatus)] /\
  length (db_applications (snd out)) = length (db_applications w) /\
  forall i row, nth_error (db_applications w) i = Some row ->
    exists row',
      nth_error (db_applications (snd out)) i = Some row' /\
      scoring_part row' = scoring_part row /\
      (id row <> applicationId -> row' = row) /\
      (id row = applicationId ->
         status row' = newStatus /\
         (id row', job_id row', user_id row', applied_at row', cover_letter row') =
         (id row, job_id row, user_id row, applied_at row, cover_letter row)).
Proof.
  cbv zeta.
  rewrite (updateApplicationStatus_outcome env applicationId newStatus w), Hok.
  cbn [fst snd calls db_applications set_applications set_db log_call].
  split; [reflexivity |].
  split; [apply update_where_id_length |].
  intros i row Hrow. unfold update_where_id.
  rewrite nth_error_map, Hrow. cbn [option_map].
  destruct (String.eqb (id row) applicationId) eqn:Heq.
  - apply String.eqb_eq in Heq.
    eexists; split; [reflexivity |].
    split; [reflexivity |].
    split; [intro Hne; contradiction | intros _; split; reflexivity].
  - apply String.eqb_neq in Heq.
    eexists; split; [reflexivity |].
    split; [reflexivity |].
    split; [reflexivity | intro Hid; contradiction].
Qed.

(** X8, for the reviewer accepting Alice's scored application. *)
Lemma updateApplicationStatus_keeps_scores_witness :
  map scoring_part
    (db_applications
       (snd (useHRApplications.updateApplicationStatus Sample.env "app-0" accepted
               Sample.reviewer_world)))
  = map scoring_part (db_applications Sample.reviewer_world) /\
  length (db_applications
            (snd (useHRApplications.updateApplicationStatus Sample.env "app-0"
                    accepted Sample.reviewer_world))) = 1%nat.
Proof.
  destruct (updateApplicationStatus_keeps_scores Sample.env "app-0" accepted
              Sample.reviewer_world eq_refl) as (_ & Hlen & _).
  split; [reflexivity | exact Hlen].
Defined.

Lemma writes_commute (statusId : string) (newStatus : Status) (scoringId : string)
  (sc : option (option number)) (cat : option (option string))
  (conf : option (option number)) (at_ : string) (rows : list ApplicationRow) :
  update_where_id scoringId (WriteScoring sc cat conf at_)
    (update_where_id statusId (WriteStatus newStatus) rows) =
  update_where_id statusId (WriteStatus newStatus)
    (update_where_id scoringId (WriteScoring sc cat conf at_) rows).
Proof.
  unfold update_where_id. rewrite !map_map. apply map_ext. intro r.
  destruct (String.eqb (id r) statusId) eqn:H1,
           (String.eqb (id r) scoringId) eqn:H2;
    simpl; rewrite ?H1, ?H2; reflexivity.
Qed.

Lemma rescore_all_map_status (env : Env) (scoringId : string) (result : Json)
  (statusId : string) (newStatus : Status) (prev : list ApplicationWithDetails) :
  let restatus := fun app => if String.eqb (application_id app) statusId
                             then with_status newStatus app else app in
  forall t,
    rescore_all env scoringId result (map restatus prev) t =
    (map restatus (fst (rescore_all env scoringId result prev t)),
     snd (rescore_all env scoringId result prev t)).
Proof.
  cbv zeta. induction prev as [| a rest IH]; intro t; [reflexivity |].
  cbn [map rescore_all].
  assert (Hid : application_id
                  (if String.eqb (application_id a) statusId
                   then with_status newStatus a else a) = application_id a)
    by (destruct (String.eqb (application_id a) statusId); reflexivity).
  rewrite Hid.
  destruct (String.eqb (application_id a) scoringId).
  - rewrite IH.
    destruct (rescore_all env scoringId result rest (S t)) as [rest' t'].
    cbn [fst snd map]. f_equal. f_equal.
    destruct (String.eqb (application_id a) statusId) eqn:Hs; cbn; rewrite ?Hs;
      reflexivity.
  - rewrite IH.
    destruct (rescore_all env scoringId result rest t) as [rest' t'].
    reflexivity.
Qed.

(** The table and the cached list the reviewer's run leaves, in terms of
    the write the backend accepts. *)
Lemma calculateAtsScore_leaves (env : Env)
  (applicationId jobDescription resumeFilePath : string) (w : World) :
  let out := useHRApplications.calculateAtsScore env applicationId jobDescription
               resumeFilePath w in
  let accepted := accepted_write env
                    (useHRApplications.ATS_API_URL ++ "/analyze-resume")
                    jobDescription resumeFilePath (clock env (ticks w)) in
  db_applications (snd out) =
    match accepted with
    | Some (_, wr) => update_where_id applicationId wr (db_applications w)
    | None => db_applications w
    end /\
  applications (snd out) =
    match accepted with
    | Some (result, _) =>
        fst (rescore_all env applicationId result (applications w) (S (ticks w)))
    | None => applications w
    end.
Proof.
  cbv zeta. rewrite calculateAtsScore_outcome. unfold accepted_write. cbv zeta.
  destruct (error (storage_download env resumeFilePath)); [split; reflexivity |].
  destruct (http_post env _ _) as [e | code js]; [split; reflexivity |].
  destruct (ok code); [| split; reflexivity].
  destruct js as [r |]; [| split; reflexivity].
  destruct (is_null r); [split; reflexivity |].
  destruct (update_error env); [split; reflexivity |].
  destruct (backend_reads env _); [| split; reflexivity].
  cbn [snd db_applications applications set_loading].
  rewrite rescored_db, rescored_applications. split; reflexivity.
Qed.

(** What the reviewer's run reports depends on the answers alone, not on
    the world it starts from. *)
Lemma calculateAtsScore_result_independent (env : Env)
  (applicationId jobDescription resumeFilePath : string) (w w' : World) :
  fst (useHRApplications.calculateAtsScore env applicationId jobDescription
         resumeFilePath w) =
  fst (useHRApplications.calculateAtsScore env applicationId jobDescription
         resumeFilePath w').
Proof.
  rewrite !calculateAtsScore_outcome. cbv zeta.
  destruct (error (storage_download env resumeFilePath)); [reflexivity |].
  destruct (http_post env _ _) as [e | code js]; [reflexivity |].
  destruct (ok code); [| reflexivity].
  destruct js as [r |]; [| reflexivity].
  destruct (is_null r); [reflexivity |].
  destruct (update_error env); [reflexivity |].
  unfold scoring_patch, backend_reads.
  destruct (sent (takes_number env) (property r "ats_score")); [| reflexivity].
  destruct (sent (takes_text env) (property r "predicted_category")); [| reflexivity].
  destruct (sent (takes_number env) (property r "confidence")); reflexivity.
Qed.

(** The same for a status change, which also leaves the clock alone. *)
Lemma updateApplicationStatus_leaves (env : Env) (applicationId : string)
  (newStatus : Status) (w : World) :
  let out := useHRApplications.updateApplicationStatus env applicationId newStatus w in
  fst out =
    match update_error env with
    | Some e => Return (mkHookResult false None (Some (error_text e)))
    | None => Return (mkHookResult true None None)
    end /\
  db_applications (snd out) =
    match update_error env with
    | Some _ => db_applications w
    | None => update_where_id applicationId (WriteStatus newStatus)
                (db_applications w)
    end /\
  applications (snd out) =
    match update_error env with
    | Some _ => applications w
    | None => map (fun app => if String.eqb (application_id app) applicationId
                              then with_status newStatus app else app)
                  (applications w)
    end /\
  ticks (snd out) = ticks w.
Proof.
  cbv zeta. rewrite updateApplicationStatus_outcome.
  destruct (update_error env); repeat split.
Qed.

(** X9.  A status change and a re-score commute, for the same or for
    different applications: run in either order against the same answers,
    the two reviewer actions report the same results and leave the same
    table and the same cached list. *)
Theorem status_change_and_rescoring_commute (env_status env_scoring : Env)
  (statusId : string) (newStatus : Status)
  (scoringId jobDescription resumeFilePath : string) (w : World) :
  let status_alone :=
    useHRApplications.updateApplicationStatus env_status statusId newStatus w in
  let scoring_alone :=
    useHRApplications.calculateAtsScore env_scoring scoringId jobDescription
      resumeFilePath w in
  let status_first :=
    useHRApplications.calculateAtsScore env_scoring scoringId jobDescription
      resumeFilePath (snd status_alone) in
  let scoring_first :=
    useHRApplications.updateApplicationStatus env_status statusId newStatus
      (snd scoring_alone) in
  fst status_first = fst scoring_alone /\
  fst scoring_first = fst status_alone /\
  db_applications (snd status_first) = db_applications (snd scoring_first) /\
  applications (snd status_first) = applications (snd scoring_first).
Proof.
  cbv zeta.
  destruct (updateApplicationStatus_leaves env_status statusId newStatus w)
    as (Hres & Hdb & Happs & Hticks).
  destruct (calculateAtsScore_leaves env_scoring scoringId jobDescription
              resumeFilePath w) as (Hsdb & Hsapps).
  destruct (updateApplicationStatus_leaves env_status statusId newStatus
              (snd (useHRApplications.calculateAtsScore env_scoring scoringId
                      jobDescription resumeFilePath w)))
    as (Hres' & Hdb' & Happs' & _).
  destruct (calculateAtsScore_leaves env_scoring scoringId jobDescription
              resumeFilePath
              (snd (useHRApplications.updateApplicationStatus env_status statusId
                      newStatus w))) as (Hsdb' & Hsapps').
  cbv zeta in *.
  split; [apply calculateAtsScore_result_independent |].
  split; [now rewrite Hres', Hres |].
  rewrite Hsdb', Hsapps', Hdb', Happs', Hticks, Hdb, Happs, Hsdb, Hsapps.
  destruct (update_error env_status) as [se |];
    destruct (accepted_write env_scoring _ jobDescription resumeFilePath _)
      as [[r wr] |] eqn:Hacc; try (split; reflexivity).
  split.
  - unfold accepted_write in Hacc.
    destruct (error (storage_download env_scoring resumeFilePath)); [discriminate |].
    destruct (http_post env_scoring _ _) as [e | code js]; [discriminate |].
    destruct (ok code); [| discriminate].
    destruct js as [r0 |]; [| discriminate].
    destruct (is_null r0); [discriminate |].
    destruct (update_error env_scoring); [discriminate |].
    destruct (backend_reads env_scoring _) as [wr0 |] eqn:Hreads; [| discriminate].
    injection Hacc as _ <-.
    apply backend_reads_scoring in Hreads.
    destruct Hreads as (sc & cat & conf & ->).
    apply writes_commute.
  - pose proof (rescore_all_map_status env_scoring scoringId r statusId newStatus
                  (applications w) (S (ticks w))) as Hmap.
    cbv zeta in Hmap. rewrite Hmap. reflexivity.
Qed.

Lemma status_write_overwrites (application : string) (first last : Status)
  (rows : list ApplicationRow) :
  update_where_id application (WriteStatus last)
    (update_where_id application (WriteStatus first) rows) =
  update_where_id application (WriteStatus last) rows.
Proof.
  unfold update_where_id. rewrite map_map. apply map_ext. intro r.
  destruct (String.eqb (id r) application) eqn:Hid; simpl; rewrite Hid; reflexivity.
Qed.

(** X10.  Of two status changes of the same application the last one wins:
    once the second is accepted, the table and the cached list are those
    the second change alone would have left, whether or not the first was
    accepted; in particular repeating a change is harmless. *)
Theorem last_status_change_wins (env_first env_last : Env) (applicationId : string)
  (first last : Status) (w : World)
  (Hok : update_error env_last = None) :
  let both :=
    useHRApplications.updateApplicationStatus env_last applicationId last
      (snd (useHRApplications.updateApplicationStatus env_first applicationId
              first w)) in
  let alone :=
    useHRApplications.updateApplicationStatus env_last applicationId last w in
  fst both = Return (mkHookResult true None None) /\
  db_applications (snd both) = db_applications (snd alone) /\
  applications (snd both) = applications (snd alone).
Proof.
  cbv zeta. rewrite !updateApplicationStatus_outcome, Hok.
  destruct (update_error env_first);
    cbn [fst snd db_applications applications set_applications set_db log_call
           log_console].
  - repeat split.
  - split; [reflexivity |].
    split; [apply status_write_overwrites |].
    rewrite map_map. apply map_ext. intro app.
    destruct (String.eqb (application_id app) applicationId) eqn:Hid; simpl;
      rewrite Hid; reflexivity.
Qed.

(** X10, for Alice's application first marked reviewed, then accepted. *)
Lemma last_status_change_wins_witness :
  map status
    (db_applications
       (snd (useHRApplications.updateApplicationStatus Sample.env "app-0" accepted
               (snd (useHRApplications.updateApplicationStatus Sample.env "app-0"
                       reviewed Sample.reviewer_world)))))
  = [accepted].
Proof.
  destruct (last_status_change_wins Sample.env Sample.env "app-0" reviewed accepted
              Sample.reviewer_world eq_refl) as (_ & Hdb & _).
  rewrite Hdb. reflexivity.
Defined.


(** ** Further properties: every way a submission can end *)

(** The submission, check by check, with the world it leaves. *)
Lemma applyToJob_outcome (env : Env) (user : option User)
  (jobId jobDescription : string) (coverLetter : option string) (w : World) :
  useApplications.applyToJob env user jobId jobDescription coverLetter w =
  match user_id_of user with
  | None =>
      (Failed (new_Error "Please log in to apply for jobs"),
       useApplications.onError (new_Error "Please log in to apply for jobs") w)
  | Some u =>
      let w1 := log_call (SelectLatestResume u) w in
      match usable_file_path (resume_lookup env u) with
      | None =>
          (Failed (new_Error "RESUME_REQUIRED"),
           useApplications.onError (new_Error "RESUME_REQUIRED") w1)
      | Some path =>
          let w2 := log_call (SelectApplication jobId u) w1 in
          match existing_application env jobId u (db_applications w) with
          | Some _ =>
              (Failed (new_Error "You have already applied to this job!"),
               useApplications.onError
                 (new_Error "You have already applied to this job!") w2)
          | None =>
              let payload := {| ins_job_id := jobId; ins_user_id := u;
                                ins_status := pending;
                                ins_cover_letter := or_null coverLetter |} in
              let w3 := log_call (InsertApplication payload) w2 in
              match insert_error env with
              | Some e => (Failed e, useApplications.onError e w3)
              | None =>
                  let w4 := set_db (fun rows =>
                              rows ++ [new_row payload (generated_id env)
                                               (server_now env)]) w3 in
                  let sc := useApplications.calculateAndSaveAtsScore env
                              (generated_id env) jobDescription path w4 in
                  (Succeeded (Some (generated_id env)),
                   useApplications.onSuccess
                     match fst sc with
                     | Return _ => snd sc
                     | Throw _ => log_console "ATS calculation failed:" (snd sc)
                     end)
              end
          end
      end
  end.
Proof.
  unfold useApplications.applyToJob, useApplications.mutationFn,
    existing_application.
  destruct (user_id_of user) as [u |]; [| reflexivity].
  cbv beta iota delta [bind select_latest_resume].
  destruct (usable_file_path (resume_lookup env u)) as [path |]; [| reflexivity].
  cbv beta iota zeta delta [bind select_application insert_application].
  change (db_applications (log_call (SelectLatestResume u) w))
    with (db_applications w).
  destruct (application_lookup_error env) as [le |].
  - cbn [data]. destruct (insert_error env) as [ie |]; [reflexivity |].
    cbv beta iota zeta delta [bind try_catch effect ret data error].
    destruct (useApplications.calculateAndSaveAtsScore env (generated_id env)
                jobDescription path _) as [[r | e] w5]; reflexivity.
  - destruct (data (maybeSingle (map id (applications_of jobId u
                                           (db_applications w))))) as [found |];
      [reflexivity |].
    destruct (insert_error env) as [ie |]; [reflexivity |].
    cbv beta iota zeta delta [bind try_catch effect ret data error].
    destruct (useApplications.calculateAndSaveAtsScore env (generated_id env)
                jobDescription path _) as [[r | e] w5]; reflexivity.
Qed.

(** X11.  Without a signed-in user (no user, or a user with an empty id) a
    submission asks nothing of the backend: it fails with the log-in
    message, raises the generic failure notification carrying that message,
    and leaves the table and the call log as they were. *)
Theorem signed_out_submission_asks_nothing (env : Env) (user : option User)
  (jobId jobDescription : string) (coverLetter : option string) (w : World)
  (Hout : user_id_of user = None) :
  let out := useApplications.applyToJob env user jobId jobDescription coverLetter w in
  fst out = Failed (new_Error "Please log in to apply for jobs") /\
  calls (snd out) = calls w /\
  db_applications (snd out) = db_applications w /\
  toasts (snd out) =
    toasts w ++
    [ToastApplicationFailed (Some (JString "Please log in to apply for jobs"))] /\
  invalidations (snd out) = invalidations w.
Proof.
  cbv zeta. rewrite applyToJob_outcome, Hout. repeat split.
Qed.

(** X11, for a user object whose id is empty. *)
Lemma signed_out_submission_asks_nothing_witness :
  calls (snd (useApplications.applyToJob Sample.env (Some {| uid := "" |}) "job-1"
                "Senior Go Engineer" None Sample.applied_world))
  = calls Sample.applied_world.
Proof.
  destruct (signed_out_submission_asks_nothing Sample.env (Some {| uid := "" |})
              "job-1" "Senior Go Engineer" None Sample.applied_world eq_refl)
    as (_ & Hcalls & _).
  exact Hcalls.
Defined.

(** The error callback, by the message of what was thrown. *)
Lemma onError_spec (e : JsError) (w : World) :
  (searchable (message e) = true ->
   exists t,
     useApplications.onError e w = push_toast t w /\
     closes_submission t = true /\ t <> ToastSubmitted /\
     (forall text, message e = Some (JString text) ->
        text <> "RESUME_REQUIRED" -> includes text "already applied" = false ->
        t = ToastApplicationFailed (Some (JString text))) /\
     (forall items, message e = Some (JArray items) ->
        t = if array_includes items "already applied" then ToastAlreadyApplied
            else ToastApplicationFailed (Some (JArray items)))) /\
  (searchable (message e) = false -> useApplications.onError e w = w).
Proof.
  unfold useApplications.onError.
  destruct (message e) as [[| b | q | text | items | fields] |]; cbn [searchable];
    try (split; [discriminate | reflexivity]).
  - split; [intros _ | discriminate].
    destruct (String.eqb text "RESUME_REQUIRED") eqn:Hr.
    + exists ToastResumeRequired. repeat split; try discriminate.
      intros text' H Hne. injection H as <-.
      apply String.eqb_eq in Hr. contradiction.
    + destruct (includes text "already applied") eqn:Ha.
      * exists ToastAlreadyApplied. repeat split; try discriminate.
        intros text' H _ Hno. injection H as <-. congruence.
      * exists (ToastApplicationFailed (Some (JString text))).
        repeat split; try discriminate.
        intros text' H _ _. injection H as <-. reflexivity.
  - split; [intros _ | discriminate].
    destruct (array_includes items "already applied") eqn:Ha.
    + exists ToastAlreadyApplied. repeat split; try discriminate.
      intros items' H. injection H as <-. now rewrite Ha.
    + exists (ToastApplicationFailed (Some (JArray items))).
      repeat split; try discriminate.
      intros items' H. injection H as <-. now rewrite Ha.
Qed.

(** The table a submission leaves, by the way it settles. *)
Lemma applyToJob_table (env : Env) (user : option User)
  (jobId jobDescription : string) (coverLetter : option string) (w : World) :
  let out := useApplications.applyToJob env user jobId jobDescription coverLetter w in
  (forall e, fst out = Failed e -> db_applications (snd out) = db_applications w) /\
  (forall d, fst out = Succeeded d ->
     exists u,
       user_id_of user = Some u /\ d = Some (generated_id env) /\
       let created :=
         new_row {| ins_job_id := jobId; ins_user_id := u; ins_status := pending;
                    ins_cover_letter := or_null coverLetter |}
                 (generated_id env) (server_now env) in
       (db_applications (snd out) = db_applications w ++ [created] \/
        exists score category confidence,
          db_applications (snd out) =
            update_where_id (generated_id env)
              (WriteScoring score category confidence (clock env (ticks w)))
              (db_applications w ++ [created]))).
Proof.
  cbv zeta. rewrite applyToJob_outcome.
  assert (Hfail : forall e w0 e',
            db_applications w0 = db_applications w ->
            fst (Failed e, useApplications.onError e w0) = Failed e' ->
            db_applications (snd (Failed e, useApplications.onError e w0)) =
            db_applications w).
  { intros e w0 e' Hw0 _. cbn [snd].
    destruct (onError_frame e w0) as (Hdb & _). now rewrite Hdb. }
  destruct (user_id_of user) as [u |].
  2:{ split; [intros e; now apply Hfail | intros d H; discriminate H]. }
  cbv zeta.
  destruct (usable_file_path (resume_lookup env u)) as [path |].
  2:{ split; [intros e; now apply Hfail | intros d H; discriminate H]. }
  destruct (existing_application env jobId u (db_applications w)).
  { split; [intros e; now apply Hfail | intros d H; discriminate H]. }
  destruct (insert_error env) as [ie |].
  { split; [intros e; now apply Hfail | intros d H; discriminate H]. }
  split; [intros e H; discriminate H |].
  intros d Hd. cbn [fst] in Hd. injection Hd as <-.
  exists u. split; [reflexivity |]. split; [reflexivity |].
  cbv zeta. cbn [snd].
  rewrite calculateAndSaveAtsScore_outcome. cbv zeta.
  destruct (error (storage_download env path)); [left; reflexivity |].
  destruct (http_post env _ _) as [e | code js]; [left; reflexivity |].
  destruct (ok code); [| left; reflexivity].
  destruct js as [r |]; [| left; reflexivity].
  destruct (is_null r); [left; reflexivity |].
  destruct (update_error env); [left; reflexivity |].
  destruct (backend_reads env _) as [wr |] eqn:Hreads; [| left; reflexivity].
  apply backend_reads_scoring in Hreads. destruct Hreads as (sc & cat & conf & ->).
  right. exists sc, cat, conf.
  destruct (number_of (property r "ats_score"));
    [destruct (template_ok (property r "predicted_category")) |]; reflexivity.
Qed.

Lemma scoring_write_keeps_unscored_part (application : string)
  (sc : option (option number)) (cat : option (option string))
  (conf : option (option number)) (now : string) (rows : list ApplicationRow) :
  map unscored_part
    (update_where_id application (WriteScoring sc cat conf now) rows) =
  map unscored_part rows.
Proof.
  unfold update_where_id. rewrite map_map. apply map_ext. intro row.
  destruct (String.eqb (id row) application); reflexivity.
Qed.


(** What the applicant's run leaves on the screen. *)
Lemma calculateAndSaveAtsScore_toasts (env : Env)
  (applicationId jobDescription resumeFilePath : string) (w : World) :
  let out := useApplications.calculateAndSaveAtsScore env applicationId
               jobDescription resumeFilePath w in
  match fst out with
  | Return result =>
      exists q,
        toasts (snd out) =
          toasts w ++ [ToastAtsScore q (property result "predicted_category")]
  | Throw _ => toasts (snd out) = toasts w
  end.
Proof.
  cbv zeta.
  rewrite (calculateAndSaveAtsScore_outcome env applicationId jobDescription
             resumeFilePath w).
  cbv zeta.
  destruct (error (storage_download env resumeFilePath)); [reflexivity |].
  destruct (http_post env _ _) as [e | code js]; [reflexivity |].
  destruct (ok code); [| reflexivity].
  destruct js as [r |]; [| reflexivity].
  destruct (is_null r); [reflexivity |].
  destruct (update_error env); [reflexivity |].
  destruct (backend_reads env _); [| reflexivity].
  destruct (number_of (property r "ats_score")) as [q |]; [| reflexivity].
  destruct (template_ok (property r "predicted_category")); [| reflexivity].
  exists q. reflexivity.
Qed.

(** X12.  A submission that succeeds raises the submitted notification
    last, and before it at most the score announcement.  A submission that
    fails raises exactly one notification, one of résumé required, already
    applied and failed, whenever the message of what was thrown is a
    string or an array; when it is neither, which only an error of the
    insert can be, the error callback itself faults and no notification is
    raised at all.  A failed submission never invalidates the query
    cache. *)
Theorem submission_raises_one_closing_notification (env : Env)
  (user : option User) (jobId jobDescription : string)
  (coverLetter : option string) (w : World) :
  let out := useApplications.applyToJob env user jobId jobDescription coverLetter w in
  (forall d, fst out = Succeeded d ->
     toasts (snd out) = toasts w ++ [ToastSubmitted] \/
     exists q category,
       toasts (snd out) = toasts w ++ [ToastAtsScore q category; ToastSubmitted]) /\
  (forall e, fst out = Failed e ->
     invalidations (snd out) = invalidations w /\
     (searchable (message e) = true ->
        exists t,
          toasts (snd out) = toasts w ++ [t] /\
          closes_submission t = true /\ t <> ToastSubmitted) /\
     (searchable (message e) = false ->
        toasts (snd out) = toasts w /\ insert_error env = Some e)).
Proof.
  cbv zeta. rewrite applyToJob_outcome.
  assert (Hfail : forall text w0,
            toasts w0 = toasts w -> invalidations w0 = invalidations w ->
            let out := (Failed (new_Error text),
                        useApplications.onError (new_Error text) w0) in
            (forall d, fst out = Succeeded d ->
               toasts (snd out) = toasts w ++ [ToastSubmitted] \/
               exists q category,
                 toasts (snd out) =
                   toasts w ++ [ToastAtsScore q category; ToastSubmitted]) /\
            (forall e, fst out = Failed e ->
               invalidations (snd out) = invalidations w /\
               (searchable (message e) = true ->
                  exists t,
                    toasts (snd out) = toasts w ++ [t] /\
                    closes_submission t = true /\ t <> ToastSubmitted) /\
               (searchable (message e) = false ->
                  toasts (snd out) = toasts w /\ insert_error env = Some e))).
  { intros text w0 Ht Hi. cbv zeta. cbn [fst snd].
    split; [intros d H; discriminate H |].
    intros e He. injection He as <-.
    destruct (onError_frame (new_Error text) w0) as (_ & _ & _ & Hinv & _).
    split; [now rewrite Hinv |].
    split; [| discriminate].
    intros Hs. destruct (onError_spec (new_Error text) w0) as (Hyes & _).
    destruct (Hyes Hs) as (t & -> & Hclose & Hne & _).
    exists t. cbn. rewrite Ht. auto. }
  destruct (user_id_of user) as [u |]; [| now apply Hfail].
  cbv zeta.
  destruct (usable_file_path (resume_lookup env u)) as [path |];
    [| now apply Hfail].
  destruct (existing_application env jobId u (db_applications w));
    [now apply Hfail |].
  destruct (insert_error env) as [ie |].
  { cbn [fst snd].
    split; [intros d H; discriminate H |].
    intros e He. injection He as <-.
    match goal with
    | |- context [useApplications.onError ie ?w0] =>
        destruct (onError_frame ie w0) as (_ & _ & _ & Hinv & _);
        destruct (onError_spec ie w0) as (Hyes & Hno)
    end.
    split; [now rewrite Hinv |].
    split.
    - intros Hs. destruct (Hyes Hs) as (t & -> & Hclose & Hne & _).
      exists t. cbn. auto.
    - intros Hs. rewrite (Hno Hs). cbn. auto. }
  cbn [fst snd].
  split; [| intros e H; discriminate H].
  intros d _.
  match goal with
  | |- context [useApplications.calculateAndSaveAtsScore ?e ?i ?j ?p ?w0] =>
      pose proof (calculateAndSaveAtsScore_toasts e i j p w0) as Heff;
      cbv zeta in Heff;
      destruct (useApplications.calculateAndSaveAtsScore e i j p w0)
        as [[r | err] w5]
  end; cbn [fst snd] in *.
  - destruct Heff as (q & Ht).
    right. exists q, (property r "predicted_category").
    cbn. rewrite Ht. cbn. rewrite <- app_assoc. reflexivity.
  - left. cbn. rewrite Heff. reflexivity.
Qed.

(** X12, for an insert the backend refuses with an error object that has
    no message: the submission fails and raises nothing. *)
Lemma submission_raises_one_closing_notification_witness :
  let out := useApplications.applyToJob Scenario.env_insert_refused_bare
               (Some Sample.alice) "job-1" "Senior Go Engineer" None
               Sample.empty_world in
  fst out = Failed (ErrorValue [("code", JString "42501")]) /\
  toasts (snd out) = [] /\
  invalidations (snd out) = 0%nat.
Proof.
  cbv zeta.
  destruct (submission_raises_one_closing_notification
              Scenario.env_insert_refused_bare (Some Sample.alice) "job-1"
              "Senior Go Engineer" None Sample.empty_world) as (_ & Hfailed).
  destruct (Hfailed (ErrorValue [("code", JString "42501")]) eq_refl)
    as (Hinv & _ & Hnone).
  destruct (Hnone eq_refl) as (Htoasts & _).
  split; [reflexivity |]. split; [exact Htoasts | exact Hinv].
Defined.

(** X13.  A submission never removes a row and never changes the status,
    job, applicant, submission time or cover letter of a row that was
    there: a failed submission leaves the table exactly as it was; a
    successful one adds exactly one row at the end, and every earlier row
    whose id differs from the new identity is identical afterwards. *)
Theorem submission_never_alters_other_applications (env : Env)
  (user : option User) (jobId jobDescription : string)
  (coverLetter : option string) (w : World) :
  let out := useApplications.applyToJob env user jobId jobDescription coverLetter w in
  (forall e, fst out = Failed e -> db_applications (snd out) = db_applications w) /\
  (forall d, fst out = Succeeded d ->
     length (db_applications (snd out)) = S (length (db_applications w)) /\
     map unscored_part
       (firstn (length (db_applications w)) (db_applications (snd out))) =
     map unscored_part (db_applications w) /\
     forall i row, nth_error (db_applications w) i = Some row ->
       id row <> generated_id env ->
       nth_error (db_applications (snd out)) i = Some row).
Proof.
  cbv zeta.
  destruct (applyToJob_table env user jobId jobDescription coverLetter w)
    as (Hfailed & Hdone).
  cbv zeta in Hfailed, Hdone.
  split; [exact Hfailed |].
  intros d Hd.
  destruct (Hdone d Hd) as (u & _ & _ & [Hdb | (sc & cat & conf & Hdb)]);
    rewrite Hdb.
  - split; [rewrite length_app; simpl; lia |].
    split; [rewrite firstn_app, firstn_all, Nat.sub_diag; simpl;
            now rewrite app_nil_r |].
    intros i row Hrow _. rewrite nth_error_app1; [exact Hrow |].
    apply nth_error_Some. congruence.
  - split; [rewrite update_where_id_length, length_app; simpl; lia |].
    split.
    + unfold update_where_id at 1. rewrite map_app.
      rewrite firstn_app, length_map, Nat.sub_diag.
      rewrite <- (length_map
                    (fun r0 => if String.eqb (id r0) (generated_id env)
                               then apply_write
                                      (WriteScoring sc cat conf
                                         (clock env (ticks w))) r0
                               else r0) (db_applications w)) at 1.
      rewrite firstn_all. simpl. rewrite app_nil_r.
      apply scoring_write_keeps_unscored_part.
    + intros i row Hrow Hne. unfold update_where_id.
      rewrite nth_error_map, nth_error_app1;
        [| apply nth_error_Some; congruence].
      rewrite Hrow. cbn [option_map].
      apply String.eqb_neq in Hne. now rewrite Hne.
Qed.

(** X14.  When the backend refuses the insert, the submission fails with
    the backend's own error.  Nothing is added to the table, the scoring
    sub-flow is not started (no download, no request to the scoring
    service) and the query cache is not invalidated.  When the error's
    message is a string, one notification is raised: the generic failure
    one carrying that message, unless the message happens to read as one of
    the two precondition errors.  When it is an array, the notification is
    the already-applied one if the array holds that very text and the
    generic one otherwise.  When the error has no message, or one of
    another kind, no notification is raised. *)
Theorem refused_insert_ends_submission (env : Env) (user : option User)
  (u : string) (jobId jobDescription : string) (coverLetter : option string)
  (w : World) (path : string) (e : JsError)
  (Huser : user_id_of user = Some u)
  (Hresume : usable_file_path (resume_lookup env u) = Some path)
  (Hnone : existing_application env jobId u (db_applications w) = None)
  (Hrefused : insert_error env = Some e) :
  let out := useApplications.applyToJob env user jobId jobDescription coverLetter w in
  fst out = Failed e /\
  db_applications (snd out) = db_applications w /\
  calls (snd out) =
    calls w ++
    [SelectLatestResume u; SelectApplication jobId u;
     InsertApplication {| ins_job_id := jobId; ins_user_id := u;
                          ins_status := pending;
                          ins_cover_letter := or_null coverLetter |}] /\
  invalidations (snd out) = invalidations w /\
  (forall text, message e = Some (JString text) ->
     exists t,
       toasts (snd out) = toasts w ++ [t] /\ t <> ToastSubmitted /\
       (text <> "RESUME_REQUIRED" -> includes text "already applied" = false ->
        t = ToastApplicationFailed (Some (JString text)))) /\
  (forall items, message e = Some (JArray items) ->
     toasts (snd out) =
       toasts w ++
       [if array_includes items "already applied" then ToastAlreadyApplied
        else ToastApplicationFailed (Some (JArray items))]) /\
  (searchable (message e) = false -> toasts (snd out) = toasts w).
Proof.
  cbv zeta. rewrite applyToJob_outcome, Huser. cbv zeta.
  rewrite Hresume, Hnone, Hrefused. cbn [fst snd].
  match goal with
  | |- context [useApplications.onError e ?w0] =>
      destruct (onError_frame e w0) as (Hdb & Hcalls & _ & Hinv & _);
      destruct (onError_spec e w0) as (Hyes & Hno)
  end.
  rewrite Hdb, Hcalls, Hinv.
  cbn [db_applications calls invalidations log_call].
  split; [reflexivity |]. split; [reflexivity |].
  split; [rewrite <- !app_assoc; reflexivity |].
  split; [reflexivity |].
  split.
  { intros text Hm.
    assert (Hs : searchable (message e) = true) by now rewrite Hm.
    destruct (Hyes Hs) as (t & -> & _ & Hne & Hgeneric & _).
    exists t. cbn. repeat split; [exact Hne |]. now apply Hgeneric. }
  split.
  { intros items Hm.
    assert (Hs : searchable (message e) = true) by now rewrite Hm.
    destruct (Hyes Hs) as (t & -> & _ & _ & _ & Harray).
    rewrite (Harray items Hm). reflexivity. }
  intros Hs. rewrite (Hno Hs). reflexivity.
Qed.

(** X14, for Alice applying while the backend refuses the insert, first
    with an error that carries a message, then with one that carries
    none. *)
Lemma refused_insert_ends_submission_witness :
  let out := useApplications.applyToJob Scenario.env_insert_refused
               (Some Sample.alice) "job-1" "Senior Go Engineer" None
               Sample.empty_world in
  let bare := useApplications.applyToJob Scenario.env_insert_refused_bare
                (Some Sample.alice) "job-1" "Senior Go Engineer" None
                Sample.empty_world in
  db_applications (snd out) = db_applications Sample.empty_world /\
  toasts (snd out) =
    [ToastApplicationFailed
       (Some (JString "new row violates row-level security policy"))] /\
  toasts (snd bare) = [].
Proof.
  cbv zeta.
  destruct (refused_insert_ends_submission Scenario.env_insert_refused
              (Some Sample.alice) "user-a" "job-1" "Senior Go Engineer" None
              Sample.empty_world "user-a/cv.pdf" _
              eq_refl eq_refl eq_refl eq_refl)
    as (_ & Hdb & _ & _ & Htext & _).
  destruct (Htext "new row violates row-level security policy"%string eq_refl)
    as (t & Ht & _ & Hgeneric).
  destruct (refused_insert_ends_submission Scenario.env_insert_refused_bare
              (Some Sample.alice) "user-a" "job-1" "Senior Go Engineer" None
              Sample.empty_world "user-a/cv.pdf" _
              eq_refl eq_refl eq_refl eq_refl)
    as (_ & _ & _ & _ & _ & _ & Hbare).
  split; [exact Hdb |].
  split; [| exact (Hbare eq_refl)].
  rewrite Ht, Hgeneric; [reflexivity | discriminate | reflexivity].
Defined.

(** X15.  The error of the duplicate lookup is never read.  When that
    lookup fails, an applicant who passes the résumé check is let through
    to the insert: the submission succeeds and the pair has one Application
    more than before, however many it had. *)
Theorem failed_duplicate_lookup_lets_submission_through (env : Env)
  (user : option User) (u : string) (jobId jobDescription : string)
  (coverLetter : option string) (w : World) (path : string) (le : JsError)
  (Huser : user_id_of user = Some u)
  (Hresume : usable_file_path (resume_lookup env u) = Some path)
  (Hlookup : application_lookup_error env = Some le)
  (Hinsert : insert_error env = None) :
  let out := useApplications.applyToJob env user jobId jobDescription coverLetter w in
  fst out = Succeeded (Some (generated_id env)) /\
  length (applications_of jobId u (db_applications (snd out))) =
  S (length (applications_of jobId u (db_applications w))).
Proof.
  cbv zeta.
  assert (Hok : fst (useApplications.applyToJob env user jobId jobDescription
                       coverLetter w) = Succeeded (Some (generated_id env))).
  { rewrite applyToJob_outcome, Huser. cbv zeta. rewrite Hresume.
    unfold existing_application. rewrite Hlookup, Hinsert. reflexivity. }
  split; [exact Hok |].
  destruct (applyToJob_table env user jobId jobDescription coverLetter w)
    as (_ & Hdone).
  cbv zeta in Hdone.
  destruct (Hdone _ Hok) as (u' & Hu' & _ & Hdb).
  assert (u' = u) as -> by congruence.
  assert (Hgrow :
    forall created, job_id created = jobId -> user_id created = u ->
      length (applications_of jobId u (db_applications w ++ [created])) =
      S (length (applications_of jobId u (db_applications w)))).
  { intros created Hj Hu. unfold applications_of.
    rewrite filter_app, length_app. cbn [filter].
    rewrite Hj, Hu, !String.eqb_refl. simpl. lia. }
  destruct Hdb as [-> | (sc & cat & conf & ->)].
  - apply Hgrow; reflexivity.
  - rewrite applications_of_update, update_where_id_length.
    apply Hgrow; reflexivity.
Qed.

(** X15, for Alice, who has applied, applying again while the duplicate
    lookup is unreachable. *)
Lemma failed_duplicate_lookup_lets_submission_through_witness :
  length (applications_of "job-1" "user-a"
            (db_applications
               (snd (useApplications.applyToJob
                       Sample.env_duplicate_lookup_unreachable (Some Sample.alice)
                       "job-1" "Senior Go Engineer" None Sample.applied_world))))
  = 2%nat.
Proof.
  destruct (failed_duplicate_lookup_lets_submission_through
              Sample.env_duplicate_lookup_unreachable (Some Sample.alice) "user-a"
              "job-1" "Senior Go Engineer" None Sample.applied_world
              "user-a/cv.pdf" Sample.unreachable eq_refl eq_refl eq_refl eq_refl)
    as (_ & Hlen).
  exact Hlen.
Defined.



(** ** Further properties: the cache stays in step with the table *)








(** X13, for Alice's first application added after the row of another
    applicant, which is left as it was. *)
Lemma submission_never_alters_other_applications_witness :
  nth_error
    (db_applications
       (snd (useApplications.applyToJob Sample.env
               (Some {| uid := "user-b" |}) "job-1" "Senior Go Engineer" None
               Sample.applied_world))) 0
  = Some Sample.applied_row.
Proof.
  destruct (submission_never_alters_other_applications Sample.env
              (Some {| uid := "user-b" |}) "job-1" "Senior Go Engineer" None
              Sample.applied_world) as (_ & Hdone).
  destruct (Hdone (Some "app-1") eq_refl) as (_ & _ & Hkeep).
  apply Hkeep; [reflexivity | discriminate].
Defined.
